(** * WYGIWYH: startup checks and user views

    A shallow embedding of
    - [app/apps/common/checks.py] (Django system checks on the process
      environment and on the resolved settings), and
    - [app/apps/users/views.py] (the [index] dispatch and [toggle_theme]),
    together with the properties their specification states about them.

    Python code that reads or writes ambient state (the process environment,
    the module namespace, the session) is written in a state-and-exception
    monad; the state is threaded explicitly so that "does not mutate" is a
    theorem and not a convention. *)

From Stdlib Require Import ZArith Ascii String List Bool Lia.
From stdpp Require Import gmap strings list fin_maps.
Import ListNotations.

Local Open Scope Z_scope.

(* ===================================================================== *)
(** * The fragment of Python the two modules use *)
(* ===================================================================== *)

Module Py.

(** Exceptions that the modelled code can raise. *)
Inductive exn : Type :=
| NameError (name : string)
| AttributeError (attr : string)
| KeyError (key : string)
| ValueError (message : string)
| RelatedObjectDoesNotExist (accessor : string)
| NoReverseMatch (viewname : string).

(** Result of evaluating an expression or running a function body. *)
Inductive outcome (A : Type) : Type :=
| Return (a : A)
| Raise (e : exn).
Arguments Return {A} a.
Arguments Raise {A} e.

(** A computation over an ambient state [S]: it may raise, and it hands
    back the (possibly updated) state in both cases. *)
Definition M (S A : Type) : Type := S -> outcome A * S.

Definition ret {S A} (a : A) : M S A := fun s => (Return a, s).
Definition raise {S A} (e : exn) : M S A := fun s => (Raise e, s).
Definition bind {S A B} (m : M S A) (k : A -> M S B) : M S B :=
  fun s => match m s with
           | (Return a, s') => k a s'
           | (Raise e, s') => (Raise e, s')
           end.
Definition gets {S A} (f : S -> A) : M S A := fun s => (Return (f s), s).
Definition modify {S} (f : S -> S) : M S unit := fun s => (Return tt, f s).

(** Lifting of a pure, possibly raising, expression. *)
Definition lift {S A} (o : outcome A) : M S A := fun s => (o, s).

(** [try: body except ValueError: handler]; the value of the statement is
    whatever the taken branch leaves. Other exceptions propagate. *)
Definition try_except_ValueError {S A}
    (body : M S A) (handler : M S A) : M S A :=
  fun s => match body s with
           | (Raise (ValueError _), s') => handler s'
           | r => r
           end.

(** ** [str] methods *)

(** A [string] is a sequence of code points, and [ascii] holds the code
    points below 256; text with higher code points is outside the model. *)

(** [str.lower]: the upper-case letters below 256 are A-Z and the
    Latin-1 range from 192 to 222 without the multiplication sign (215);
    each is 32 below its lower-case letter. *)
Definition lower_char (c : ascii) : ascii :=
  let n := N_of_ascii c in
  if (((65 <=? n) && (n <=? 90))
      || ((192 <=? n) && (n <=? 222) && negb (n =? 215)))%N
  then ascii_of_N (n + 32) else c.

Fixpoint lower (s : string) : string :=
  match s with
  | EmptyString => EmptyString
  | String c r => String (lower_char c) (lower r)
  end.

(** ** [int(str)]

    CPython's conversion of a [str] in base 10: leading whitespace, an
    optional sign, decimal digits with single underscores allowed between
    digits, trailing whitespace, and nothing else. A conversion of more
    than [int_max_str_digits] digits (the default of
    [sys.int_max_str_digits]) is refused with [ValueError] as well. *)

(** Whitespace for the conversion: tab to carriage return, the space, and,
    beyond ASCII, the next-line and no-break-space characters. The only
    decimal digits below 256 are 0-9. *)
Definition is_space (c : ascii) : bool :=
  let n := N_of_ascii c in
  (((9 <=? n) && (n <=? 13)) || (n =? 32) || (n =? 133) || (n =? 160))%N.

Definition digit_value (c : ascii) : option Z :=
  let n := Z.of_N (N_of_ascii c) in
  if (48 <=? n) && (n <=? 57) then Some (n - 48) else None.

Fixpoint lstrip (s : string) : string :=
  match s with
  | EmptyString => EmptyString
  | String c r => if is_space c then lstrip r else s
  end.

Fixpoint only_space (s : string) : bool :=
  match s with
  | EmptyString => true
  | String c r => is_space c && only_space r
  end.

(** [scan_digits s acc n need_digit]: [acc] is the value and [n] the
    number of the digits read so far; [need_digit] holds at the start and
    right after an underscore, where only a digit may follow. *)
Fixpoint scan_digits (s : string) (acc : Z) (n : nat) (need_digit : bool)
  : option (Z * nat) :=
  match s with
  | EmptyString => if need_digit then None else Some (acc, n)
  | String c r =>
      match digit_value c with
      | Some d => scan_digits r (10 * acc + d) (S n) false
      | None =>
          if need_digit then None
          else if Ascii.eqb c "_" then scan_digits r acc n true
          else if only_space s then Some (acc, n)
          else None
      end
  end.

Definition int_max_str_digits : nat := 4300.

Definition invalid_literal (s : string) : exn :=
  ValueError ("invalid literal for int() with base 10: " +:+ s).

Definition int (s : string) : outcome Z :=
  let body := lstrip s in
  let '(negative, digits) :=
    match body with
    | String "+" r => (false, r)
    | String "-" r => (true, r)
    | _ => (false, body)
    end in
  match scan_digits digits 0 0%nat true with
  | Some (v, n) =>
      if (int_max_str_digits <? n)%nat
      then Raise (ValueError "Exceeds the limit for integer string conversion")
      else Return (if negative then - v else v)
  | None => Raise (invalid_literal s)
  end.

(** Did [int] raise [ValueError]? *)
Definition int_fails (s : string) : bool :=
  match int s with
  | Raise (ValueError _) => true
  | _ => false
  end.

End Py.

(** The computations below are written with stdpp's monad notations
    [x ← m; k] and [m;; k]. *)
#[global] Instance M_ret {S} : MRet (Py.M S) := fun A a => Py.ret a.
#[global] Instance M_bind {S} : MBind (Py.M S) := fun A B k m => Py.bind m k.

(** [for x in l: body], with the loop's local variables as the accumulator. *)
Fixpoint for_in {S A B} (l : list A) (body : B -> A -> Py.M S B) (acc : B)
  : Py.M S B :=
  match l with
  | [] => mret acc
  | x :: rest => acc' ← body acc x; for_in rest body acc'
  end.

(* ===================================================================== *)
(** * app/apps/common/checks.py *)
(* ===================================================================== *)

Module Checks.
Import Py.

(** ** django.core.checks messages *)

Record CheckMessage : Type := {
  level : Z;
  msg : string;
  hint : option string;
  id : option string
}.

Definition ERROR : Z := 40.

(** [Error(msg, hint=None, obj=None, id=None)] *)
Definition Error (msg : string) (hint id : option string) : CheckMessage :=
  {| level := ERROR; msg := msg; hint := hint; id := id |}.

(** ** The state the checks run in *)

(** The resolved Django settings the OIDC check reads. *)
Record Settings : Type := {
  OIDC_ONLY : bool;
  SOCIALACCOUNT_PROVIDERS : gmap string (gmap string string)
}.

(** What a name of the module namespace can be bound to. *)
Inductive obj : Type :=
| ModuleObj (name : string)
| Callable (qualname : string)
| PairList (items : list (string * string))
| LazySettings.

(** [environ] is [os.environ]; [conf] is the content of [django.conf.settings];
    [globals] is the namespace of the module [apps.common.checks], in which
    the bodies of its functions look free names up when they are called. *)
Record World : Type := {
  environ : gmap string string;
  conf : Settings;
  globals : gmap string obj
}.

(** [os.getenv(key)] and [os.getenv(key, default)] *)
Definition getenv (key : string) : M World (option string) :=
  gets (fun w => environ w !! key).

Definition getenv_default (key default_ : string) : M World string :=
  gets (fun w => default default_ (environ w !! key)).

(** A free name in a function body: looked up in the module namespace at
    call time (no builtin is called [settings]). *)
Definition load_global (name : string) : M World obj :=
  fun w => match globals w !! name with
           | Some o => (Return o, w)
           | None => (Raise (NameError name), w)
           end.

(** Attribute reads on the object bound to [settings]. *)
Definition getattr_OIDC_ONLY (o : obj) : M World bool :=
  match o with
  | LazySettings => gets (fun w => OIDC_ONLY (conf w))
  | _ => raise (AttributeError "OIDC_ONLY")
  end.

Definition getattr_SOCIALACCOUNT_PROVIDERS (o : obj)
  : M World (gmap string (gmap string string)) :=
  match o with
  | LazySettings => gets (fun w => SOCIALACCOUNT_PROVIDERS (conf w))
  | _ => raise (AttributeError "SOCIALACCOUNT_PROVIDERS")
  end.

(** ** Module-level constants (lines 15-26) *)

Definition REQUIRED_ENV_VARS : list (string * string) :=
  [ ("SECRET_KEY", "This is used to provide cryptographic signing.");
    ("SQL_DATABASE", "The name of your postgres database.") ].

Definition INT_ENV_VARS : list (string * string) :=
  [ ("TASK_WORKERS", "How many workers to have for async tasks.");
    ("SESSION_EXPIRY_TIME", "The age of session cookies, in seconds.");
    ("INTERNAL_PORT", "The port on which the app listens on.");
    ("DJANGO_VITE_DEV_SERVER_PORT",
     "The port where Vite's dev server is running") ].

(** ** check_required_env_vars (lines 29-49) *)

Definition E001 (var_name description : string) : CheckMessage :=
  Error
    ("Required environment variable '" +:+ var_name +:+ "' is not set.")
    (Some (description +:+
           " Please set this variable in your .env file or environment."))
    (Some "wygiwyh.E001").

(** [not value] for [value : Optional[str]] *)
Definition not_value (value : option string) : bool :=
  match value with
  | None => true
  | Some v => String.eqb v ""
  end.

Definition required_body (errors : list CheckMessage)
    (item : string * string) : M World (list CheckMessage) :=
  let '(var_name, description) := item in
  value ← getenv var_name;
  if not_value value
  then mret (errors ++ [E001 var_name description])
  else mret errors.

Definition check_required_env_vars : M World (list CheckMessage) :=
  for_in REQUIRED_ENV_VARS required_body [].

(** ** check_int_env_vars (lines 52-75) *)

Definition E002 (var_name description value : string) : CheckMessage :=
  Error
    ("Environment variable '" +:+ var_name +:+
     "' must be a valid integer, got '" +:+ value +:+ "'.")
    (Some description)
    (Some "wygiwyh.E002").

Definition int_body (errors : list CheckMessage)
    (item : string * string) : M World (list CheckMessage) :=
  let '(var_name, description) := item in
  value ← getenv var_name;
  match value with
  | Some value =>
      try_except_ValueError
        (_ ← lift (int value); mret errors)
        (mret (errors ++ [E002 var_name description value]))
  | None => mret errors
  end.

Definition check_int_env_vars : M World (list CheckMessage) :=
  for_in INT_ENV_VARS int_body [].

(** ** check_soft_delete_config (lines 78-103) *)

Definition E003 (keep_deleted_for : string) : CheckMessage :=
  Error
    ("Environment variable 'KEEP_DELETED_TRANSACTIONS_FOR' must be a valid integer when ENABLE_SOFT_DELETE is enabled, got '"
     +:+ keep_deleted_for +:+ "'.")
    (Some "Time in days to keep soft deleted transactions for. Set to 0 to keep all transactions indefinitely.")
    (Some "wygiwyh.E003").

Definition check_soft_delete_config : M World (list CheckMessage) :=
  let errors := [] in
  flag ← getenv_default "ENABLE_SOFT_DELETE" "false";
  let enable_soft_delete := String.eqb (lower flag) "true" in
  if enable_soft_delete then
    keep_deleted_for ← getenv "KEEP_DELETED_TRANSACTIONS_FOR";
    match keep_deleted_for with
    | Some keep_deleted_for =>
        try_except_ValueError
          (_ ← lift (int keep_deleted_for); mret errors)
          (mret (errors ++ [E003 keep_deleted_for]))
    | None => mret errors
    end
  else mret errors.

(** ** check_oidc_vars (lines 106-124) *)

Definition E004 : CheckMessage :=
  Error
    "Environment variable OIDC_ONLY can only be set when there is exactly one external authentication provider configured."
    None
    (Some "wygiwyh.E004").

Definition check_oidc_vars : M World (list CheckMessage) :=
  let errors := [] in
  settings ← load_global "settings";
  oidc_only ← getattr_OIDC_ONLY settings;
  condition ←
    (if oidc_only : bool return M World bool then
       settings ← load_global "settings";
       providers ← getattr_SOCIALACCOUNT_PROVIDERS settings;
       mret (negb (size providers =? 1)%nat)
     else mret false);
  if condition : bool then mret (errors ++ [E004]) else mret errors.

(** ** The module after import *)

(** The names bound by the top-level statements of checks.py: [import os],
    [from django.core.checks import Error, register], the two constants and
    the four [def]s. Nothing binds [settings]. *)
Definition checks_globals : gmap string obj :=
  list_to_map
    [ ("os", ModuleObj "os");
      ("Error", Callable "django.core.checks.Error");
      ("register", Callable "django.core.checks.register");
      ("REQUIRED_ENV_VARS", PairList REQUIRED_ENV_VARS);
      ("INT_ENV_VARS", PairList INT_ENV_VARS);
      ("check_required_env_vars", Callable "check_required_env_vars");
      ("check_int_env_vars", Callable "check_int_env_vars");
      ("check_soft_delete_config", Callable "check_soft_delete_config");
      ("check_oidc_vars", Callable "check_oidc_vars") ].

(** The process once checks.py is imported, for an environment and a
    resolved configuration. *)
Definition after_import (env : gmap string string) (c : Settings) : World :=
  {| environ := env; conf := c; globals := checks_globals |}.

(** The four functions decorated with [@register()], in definition order. *)
Definition registered_checks : list (M World (list CheckMessage)) :=
  [ check_required_env_vars; check_int_env_vars;
    check_soft_delete_config; check_oidc_vars ].

(** The three of them that read the process environment only. *)
Definition env_checks : list (M World (list CheckMessage)) :=
  [ check_required_env_vars; check_int_env_vars; check_soft_delete_config ].

(** django.core.checks.registry.run_checks: call every check and extend one
    list with what each returns; an exception of a check is not caught. *)
Definition run_body (errors : list CheckMessage)
    (check : M World (list CheckMessage)) : M World (list CheckMessage) :=
  new_errors ← check; mret (errors ++ new_errors).

Definition run_checks (checks : list (M World (list CheckMessage)))
  : M World (list CheckMessage) :=
  for_in checks run_body [].

End Checks.

(* ===================================================================== *)
(** * app/apps/users/views.py *)
(* ===================================================================== *)

Module Views.
Import Py.

(** The views are wrapped by decorators ([htmx_login_required],
    [require_http_methods]) that answer in their place when the request is
    anonymous or uses another method. What follows is the view function
    itself, for a request the decorators let through. *)

(** ** Requests and responses *)

(** A value stored in the session. [VOther] stands for the remaining
    JSON-serialisable objects (floats, lists, dicts): all the views need of
    them is their truth value, and none of them is equal to a [str]. *)
Inductive value : Type :=
| VNone
| VBool (b : bool)
| VInt (z : Z)
| VStr (s : string)
| VOther (truth : bool).

(** [bool(v)], as [not v] needs it. *)
Definition truthy (v : value) : bool :=
  match v with
  | VNone => false
  | VBool b => b
  | VInt z => negb (z =? 0)
  | VStr s => negb (String.eqb s "")
  | VOther t => t
  end.

(** [v == s] for a string literal [s]. *)
Definition eq_str (v : value) (s : string) : bool :=
  match v with
  | VStr s' => String.eqb s' s
  | _ => false
  end.

Record UserSettings : Type := { start_page : string }.

(** [settings] is the reverse side of the one-to-one key of UserSettings:
    [None] for a user that has no row, for whom reading
    [request.user.settings] raises. *)
Record User : Type := { settings : option UserSettings }.

(** [request.session] is the state of a view; the rest of the request is
    read only. *)
Record HttpRequest : Type := { user : User }.

Record HttpResponse : Type := {
  status : Z;
  location : option string
}.

(** [HttpResponse(status=204)] and [redirect(url)] *)
Definition no_content : HttpResponse := {| status := 204; location := None |}.
Definition redirect (url : string) : HttpResponse :=
  {| status := 302; location := Some url |}.

(** [UserSettings.StartPage]: the text choices of the [start_page] field.
    The enumeration is declared in apps/users/models.py; its seven members
    are taken here with whatever string values they carry. *)
Record StartPageChoices : Type := {
  MONTHLY : string;
  YEARLY_ACCOUNT : string;
  YEARLY_CURRENCY : string;
  NETWORTH_CURRENT : string;
  NETWORTH_PROJECTED : string;
  ALL_TRANSACTIONS : string;
  CALENDAR : string
}.

Definition members (sp : StartPageChoices) : list string :=
  [ MONTHLY sp; YEARLY_ACCOUNT sp; YEARLY_CURRENCY sp; NETWORTH_CURRENT sp;
    NETWORTH_PROJECTED sp; ALL_TRANSACTIONS sp; CALENDAR sp ].

(** ** index (lines 30-47) *)

Section Index.

Variable StartPage : StartPageChoices.
(** [django.urls.reverse], from a URL name to its path. *)
Variable reverse : string -> string.

(** [request.user.settings] *)
Definition user_settings (request : HttpRequest) : outcome UserSettings :=
  match settings (user request) with
  | Some row => Return row
  | None => Raise (RelatedObjectDoesNotExist "settings")
  end.

(** The first test of the chain reads [request.user.settings] and every
    later test is reached only when that read returned, so the row is read
    once here and the chain runs on its [start_page]. *)
Definition index (request : HttpRequest) : outcome HttpResponse :=
  match user_settings request with
  | Raise e => Raise e
  | Return row =>
      let page := start_page row in
      if String.eqb page (MONTHLY StartPage) then
        Return (redirect (reverse "monthly_index"))
      else if String.eqb page (YEARLY_ACCOUNT StartPage) then
        Return (redirect (reverse "yearly_index_account"))
      else if String.eqb page (YEARLY_CURRENCY StartPage) then
        Return (redirect (reverse "yearly_index_currency"))
      else if String.eqb page (NETWORTH_CURRENT StartPage) then
        Return (redirect (reverse "net_worth_current"))
      else if String.eqb page (NETWORTH_PROJECTED StartPage) then
        Return (redirect (reverse "net_worth_projected"))
      else if String.eqb page (ALL_TRANSACTIONS StartPage) then
        Return (redirect (reverse "transactions_all_index"))
      else if String.eqb page (CALENDAR StartPage) then
        Return (redirect (reverse "calendar_index"))
      else
        Return (redirect (reverse "monthly_index"))
  end.

End Index.

(** ** Session access *)

(** [request.session.get(key)] *)
Definition session_get (key : string) : M (gmap string value) value :=
  gets (fun s => default VNone (s !! key)).

(** [request.session[key]] *)
Definition session_getitem (key : string) : M (gmap string value) value :=
  fun s => match s !! key with
           | Some v => (Return v, s)
           | None => (Raise (KeyError key), s)
           end.

(** [request.session[key] = v] *)
Definition session_setitem (key : string) (v : value)
  : M (gmap string value) unit :=
  modify (fun s => <[key := v]> s).

(** ** toggle_theme (lines 141-156) *)

Definition toggle_theme : M (gmap string value) HttpResponse :=
  stored ← session_get "theme";
  (if truthy stored return M (gmap string value) unit
   then mret tt
   else session_setitem "theme" (VStr "wygiwyh_dark"));;
  theme ← session_getitem "theme";
  (if eq_str theme "wygiwyh_dark" return M (gmap string value) unit then
     session_setitem "theme" (VStr "wygiwyh_light")
   else
     theme ← session_getitem "theme";
     if eq_str theme "wygiwyh_light" then
       session_setitem "theme" (VStr "wygiwyh_dark")
     else
       session_setitem "theme" (VStr "wygiwyh_light"));;
  mret no_content.

(** The session a call leaves behind. *)
Definition session_after {A} (m : M (gmap string value) A)
    (s : gmap string value) : gmap string value :=
  snd (m s).

End Views.

(* ===================================================================== *)
(** * app/apps/users/views.py: the remaining views *)
(* ===================================================================== *)

Module Sidebar.
Import Py Views.

(** ** toggle_sidebar_status (lines 122-138) *)

Definition toggle_sidebar_status : M (gmap string value) HttpResponse :=
  stored ← session_get "sidebar_status";
  (if truthy stored return M (gmap string value) unit
   then mret tt
   else session_setitem "sidebar_status" (VStr "floating"));;
  sidebar ← session_getitem "sidebar_status";
  (if eq_str sidebar "floating" return M (gmap string value) unit then
     session_setitem "sidebar_status" (VStr "fixed")
   else
     sidebar ← session_getitem "sidebar_status";
     if eq_str sidebar "fixed" then
       session_setitem "sidebar_status" (VStr "floating")
     else
       session_setitem "sidebar_status" (VStr "fixed"));;
  mret no_content.

(** The two positions of the sidebar. *)
Definition positions : list string := [ "floating"; "fixed" ].

End Sidebar.

Module Site.
Import Py Views.

(** ** What the rendering and the form views work on *)

(** A row of the UserSettings table: the field [index] reads, and the two
    flags the toggles write. *)
Record UserSettingsRow : Type := {
  fields : UserSettings;
  hide_amounts : bool;
  mute_sounds : bool
}.

(** A row of the user table. *)
Record Account : Type := {
  username : string;
  is_superuser : bool
}.

(** The database and the message storage of the request. UserSettings has a
    one-to-one key to the user, so its table is keyed by the user's id. *)
Record State : Type := {
  usersettings : gmap Z UserSettingsRow;
  accounts : gmap Z Account;
  flash : list (Z * string)
}.

(** [request.method], [request.user] (its id and its superuser flag, as the
    authentication middleware loaded them) and [request.POST]. *)
Record Request : Type := {
  method : string;
  user_id : Z;
  user_is_superuser : bool;
  POST : list (string * string)
}.

(** A response: status, the template and the context keys it was rendered
    from (if it was), and the headers set on it. *)
Record Response : Type := {
  status_code : Z;
  template : option string;
  context : list string;
  headers : list (string * string)
}.

(** The header every [HttpResponse] starts with. *)
Definition content_type : string * string :=
  ("Content-Type", "text/html; charset=utf-8").

(** [render(request, template, context)] *)
Definition render (template_name : string) (keys : list string) : Response :=
  {| status_code := 200; template := Some template_name;
     context := keys; headers := [content_type] |}.

(** [HttpResponse(status=204, headers=...)] *)
Definition no_content_with (hs : list (string * string)) : Response :=
  {| status_code := 204; template := None; context := [];
     headers := hs ++ [content_type] |}.

(** [response.headers.get(name)] *)
Definition header (name : string) (r : Response) : option string :=
  snd <$> List.find (fun h => String.eqb h.1 name) (headers r).

(** [response.headers[name] = v] *)
Definition set_header (name v : string) (r : Response) : Response :=
  {| status_code := status_code r; template := template r;
     context := context r;
     headers := (name, v) :: List.filter (fun h => negb (String.eqb h.1 name))
                                          (headers r) |}.

(** django.contrib.messages levels and [messages.info], [messages.success]. *)
Definition INFO : Z := 20.
Definition SUCCESS : Z := 25.

Definition add_message (lvl : Z) (text : string) : M State unit :=
  modify (fun s => {| usersettings := usersettings s; accounts := accounts s;
                      flash := flash s ++ [(lvl, text)] |}).

(** [obj.save()] for a UserSettings row of [user]. *)
Definition save_settings (user : Z) (row : UserSettingsRow) : M State unit :=
  modify (fun s => {| usersettings := <[user := row]> (usersettings s);
                      accounts := accounts s; flash := flash s |}).

Section SettingsToggles.

(** The values a new UserSettings row takes for its fields, declared with
    the model in apps/users/models.py. *)
Variable defaults : UserSettingsRow.

(** [UserSettings.objects.get_or_create(user=request.user)] *)
Definition get_or_create (user : Z) : M State (UserSettingsRow * bool) :=
  fun s => match usersettings s !! user with
           | Some row => (Return (row, false), s)
           | None =>
               (Return (defaults, true),
                {| usersettings := <[user := defaults]> (usersettings s);
                   accounts := accounts s; flash := flash s |})
           end.

(** ** toggle_amount_visibility (lines 60-78) *)

Definition toggle_amount_visibility (request : Request) : M State Response :=
  '(user_settings, created) ← get_or_create (user_id request);
  let current_hide_amounts := hide_amounts user_settings in
  let new_hide_amounts := negb current_hide_amounts in
  let user_settings :=
    {| fields := fields user_settings; hide_amounts := new_hide_amounts;
       mute_sounds := mute_sounds user_settings |} in
  save_settings (user_id request) user_settings;;
  response ←
    (if new_hide_amounts return M State Response then
       add_message INFO "Transaction amounts are now hidden";;
       mret (render "users/generic/show_amounts.html" [])
     else
       add_message INFO "Transaction amounts are now displayed";;
       mret (render "users/generic/hide_amounts.html" []));
  mret (set_header "HX-Trigger" "updated" response).

(** ** toggle_sound_playing (lines 81-99) *)

Definition toggle_sound_playing (request : Request) : M State Response :=
  '(user_settings, created) ← get_or_create (user_id request);
  let current_mute_sounds := mute_sounds user_settings in
  let new_mute_sounds := negb current_mute_sounds in
  let user_settings :=
    {| fields := fields user_settings; hide_amounts := hide_amounts user_settings;
       mute_sounds := new_mute_sounds |} in
  save_settings (user_id request) user_settings;;
  response ←
    (if new_mute_sounds return M State Response then
       add_message INFO "Sounds are now muted";;
       mret (render "users/generic/play_sounds.html" [])
     else
       add_message INFO "Sounds will now play";;
       mret (render "users/generic/mute_sounds.html" []));
  mret (set_header "HX-Trigger" "updated" response).

End SettingsToggles.

(** ** The form views *)

(** A bound model form, as far as a view uses it: [is_valid()] and
    [save()]. The form classes are declared in apps/users/forms.py; what they
    accept and what they write is left open. *)
Record Form : Type := {
  is_valid : list (string * string) -> State -> bool;
  save : list (string * string) -> State -> State
}.

(** What a view can raise instead of answering. *)
Inductive raised : Type :=
| Http404
| PermissionDenied
| RelatedObjectDoesNotExist.

Inductive answer : Type :=
| Responds (r : Response)
| Raises (e : raised).

(** [messages.success(request, text)] on a state. *)
Definition with_success (text : string) (s : State) : State :=
  {| usersettings := usersettings s; accounts := accounts s;
     flash := flash s ++ [(SUCCESS, text)] |}.

Section FormViews.

(** [UserSettingsForm(..., instance=user_settings)] for the settings of a
    user, [UserAddForm(...)], and [UserUpdateForm(..., instance=user)] for
    the user with a primary key. *)
Variable UserSettingsForm : Z -> Form.
Variable UserAddForm : Form.
Variable UserUpdateForm : Z -> Form.

(** ** update_settings (lines 102-119) *)

(** [request.user.settings] is the reverse side of the one-to-one key of
    UserSettings: reading it raises when the user has no row. *)
Definition update_settings (request : Request) (s : State) : answer * State :=
  match usersettings s !! user_id request with
  | None => (Raises RelatedObjectDoesNotExist, s)
  | Some user_settings =>
      if String.eqb (method request) "POST" then
        let form := UserSettingsForm (user_id request) in
        if is_valid form (POST request) s then
          (Responds (no_content_with [("HX-Refresh", "true")]),
           with_success "Your settings have been updated"
             (save form (POST request) s))
        else
          (Responds (render "users/fragments/user_settings.html" ["form"]), s)
      else
        (Responds (render "users/fragments/user_settings.html" ["form"]), s)
  end.

(** ** user_add (lines 183-207) *)

Definition user_add (request : Request) (s : State) : answer * State :=
  if String.eqb (method request) "POST" then
    let form := UserAddForm in
    if is_valid form (POST request) s then
      (Responds (no_content_with [("HX-Trigger", "updated, hide_offcanvas")]),
       with_success "Item added successfully" (save form (POST request) s))
    else (Responds (render "users/fragments/add.html" ["form"]), s)
  else (Responds (render "users/fragments/add.html" ["form"]), s).

(** ** user_edit (lines 210-239) *)

Definition user_edit (request : Request) (pk : Z) (s : State)
  : answer * State :=
  match accounts s !! pk with
  | None => (Raises Http404, s)
  | Some user =>
      if negb (user_is_superuser request) && negb (pk =? user_id request)
      then (Raises PermissionDenied, s)
      else if String.eqb (method request) "POST" then
        let form := UserUpdateForm pk in
        if is_valid form (POST request) s then
          (Responds (no_content_with [("HX-Trigger", "updated, hide_offcanvas")]),
           with_success "Item updated successfully" (save form (POST request) s))
        else (Responds (render "users/fragments/edit.html" ["form"; "user"]), s)
      else (Responds (render "users/fragments/edit.html" ["form"; "user"]), s)
  end.

End FormViews.

End Site.

Module Login.
Import Py Checks Views.

(** ** UserLoginView.__init__ (lines 50-57) *)

(** The names bound by the top-level statements of views.py: its imports,
    its functions and its class. Nothing binds [settings]. *)
Definition views_globals : gmap string obj :=
  list_to_map
    [ ("disabled_on_demo", Callable "apps.common.decorators.demo.disabled_on_demo");
      ("only_htmx", Callable "apps.common.decorators.htmx.only_htmx");
      ("htmx_login_required", Callable "apps.common.decorators.user.htmx_login_required");
      ("is_superuser", Callable "apps.common.decorators.user.is_superuser");
      ("LoginForm", Callable "apps.users.forms.LoginForm");
      ("UserAddForm", Callable "apps.users.forms.UserAddForm");
      ("UserSettingsForm", Callable "apps.users.forms.UserSettingsForm");
      ("UserUpdateForm", Callable "apps.users.forms.UserUpdateForm");
      ("UserSettings", Callable "apps.users.models.UserSettings");
      ("messages", ModuleObj "django.contrib.messages");
      ("get_user_model", Callable "django.contrib.auth.get_user_model");
      ("logout", Callable "django.contrib.auth.logout");
      ("login_required", Callable "django.contrib.auth.decorators.login_required");
      ("LoginView", Callable "django.contrib.auth.views.LoginView");
      ("PermissionDenied", Callable "django.core.exceptions.PermissionDenied");
      ("HttpResponse", Callable "django.http.HttpResponse");
      ("get_object_or_404", Callable "django.shortcuts.get_object_or_404");
      ("redirect", Callable "django.shortcuts.redirect");
      ("render", Callable "django.shortcuts.render");
      ("reverse", Callable "django.urls.reverse");
      ("_", Callable "django.utils.translation.gettext_lazy");
      ("require_http_methods", Callable "django.views.decorators.http.require_http_methods");
      ("logout_view", Callable "logout_view");
      ("index", Callable "index");
      ("UserLoginView", Callable "UserLoginView");
      ("toggle_amount_visibility", Callable "toggle_amount_visibility");
      ("toggle_sound_playing", Callable "toggle_sound_playing");
      ("update_settings", Callable "update_settings");
      ("toggle_sidebar_status", Callable "toggle_sidebar_status");
      ("toggle_theme", Callable "toggle_theme");
      ("users_index", Callable "users_index");
      ("users_list", Callable "users_list");
      ("user_add", Callable "user_add");
      ("user_edit", Callable "user_edit") ].

(** The process once views.py is imported. *)
Definition views_imported (env : gmap string string) (c : Settings) : World :=
  {| environ := env; conf := c; globals := views_globals |}.

(** [c in s] for a one-character string [c]. *)
Fixpoint has_char (c : ascii) (s : string) : bool :=
  match s with
  | EmptyString => false
  | String c' rest => Ascii.eqb c' c || has_char c rest
  end.

Section Init.

(** The value of
    [settings.SOCIALACCOUNT_PROVIDERS[0]["APPS"]["settings"]["server_url"]]
    for a provider table: a string, or the exception one of the four
    subscripts raises. It depends on the shape the deployment's settings give
    the table, which the file does not fix. *)
Variable server_url : gmap string (gmap string string) -> outcome string.

(** [django.urls.reverse] on the URL configuration: the path of a URL name,
    or [None] where it raises [NoReverseMatch]. *)
Variable url_reverse : string -> option string.

(** [django.shortcuts.resolve_url] on a [str]: a relative URL is kept; else
    the argument is tried as a URL name; when no pattern has that name, it
    is kept if it looks like a URL (it has a slash or a dot), and the
    [NoReverseMatch] is raised again if it does not. *)
Definition resolve_url (to : string) : outcome string :=
  if String.prefix "./" to || String.prefix "../" to then Return to
  else match url_reverse to with
       | Some url => Return url
       | None =>
           if negb (has_char "/" to) && negb (has_char "." to)
           then Raise (NoReverseMatch to)
           else Return to
       end.

(** [django.shortcuts.redirect(to)] on a [str] *)
Definition shortcut_redirect (to : string) : outcome HttpResponse :=
  match resolve_url to with
  | Return url => Return (redirect url)
  | Raise e => Raise e
  end.

(** The body of [__init__]: what it returns ([None], or the value of its
    [return] statement). *)
Definition UserLoginView_init : M World (option HttpResponse) :=
  settings ← load_global "settings";
  oidc_only ← getattr_OIDC_ONLY settings;
  if oidc_only : bool then
    settings ← load_global "settings";
    providers ← getattr_SOCIALACCOUNT_PROVIDERS settings;
    url ← lift (server_url providers);
    response ← lift (shortcut_redirect url);
    mret (Some response)
  else mret None.

End Init.

End Login.

(* ===================================================================== *)
(** * Vocabulary of the properties *)
(* ===================================================================== *)

Module Spec.
Import Py Checks.

(** A computation that hands the ambient state back as it found it. *)
Definition preserves_state {S A} (m : M S A) : Prop :=
  forall s, snd (m s) = s.

(** [needle] occurs in [hay]. *)
Fixpoint mentions (needle hay : string) : bool :=
  String.prefix needle hay
  || match hay with
     | EmptyString => false
     | String _ rest => mentions needle rest
     end.

(** What one entry of [REQUIRED_ENV_VARS] contributes for an environment. *)
Definition required_finding (env : gmap string string)
    (item : string * string) : list CheckMessage :=
  if not_value (env !! item.1) then [E001 item.1 item.2] else [].

(** What one entry of [INT_ENV_VARS] contributes for an environment. *)
Definition int_finding (env : gmap string string)
    (item : string * string) : list CheckMessage :=
  match env !! item.1 with
  | Some v => if int_fails v then [E002 item.1 item.2 v] else []
  | None => []
  end.

(** What the soft-delete check contributes for an environment. *)
Definition soft_delete_finding (env : gmap string string) : list CheckMessage :=
  if String.eqb (lower (default "false" (env !! "ENABLE_SOFT_DELETE"))) "true"
  then match env !! "KEEP_DELETED_TRANSACTIONS_FOR" with
       | Some v => if int_fails v then [E003 v] else []
       | None => []
       end
  else [].

(** The finding of the integer-format check that is about [name]: its
    message opens with the quoted name. (The offending value is quoted too,
    further on, and may itself contain any text.) *)
Definition about (name : string) (f : CheckMessage) : bool :=
  String.prefix ("Environment variable '" +:+ name +:+ "'") (msg f).

(** The strings equal to "true" up to the case of each letter. *)
Definition true_spellings : list string :=
  [ "true"; "truE"; "trUe"; "trUE"; "tRue"; "tRuE"; "tRUe"; "tRUE";
    "True"; "TruE"; "TrUe"; "TrUE"; "TRue"; "TRuE"; "TRUe"; "TRUE" ].

(** ENABLE_SOFT_DELETE is bound to a spelling of "true". *)
Definition soft_delete_enabled (env : gmap string string) : Prop :=
  exists flag, env !! "ENABLE_SOFT_DELETE" = Some flag /\ In flag true_spellings.

(** The environment of the end-to-end scenario. *)
Definition scenario_env : gmap string string :=
  {[ "SECRET_KEY" := "x"; "SQL_DATABASE" := ""; "TASK_WORKERS" := "4a" ]}.

Definition no_oidc : Settings :=
  {| OIDC_ONLY := false; SOCIALACCOUNT_PROVIDERS := ∅ |}.

Definition oidc_only_no_provider : Settings :=
  {| OIDC_ONLY := true; SOCIALACCOUNT_PROVIDERS := ∅ |}.

(** The two themes. *)
Definition themes : list string := [ "wygiwyh_dark"; "wygiwyh_light" ].

(** An enumeration with seven distinct values, to run the dispatch on. *)
Definition start_pages : Views.StartPageChoices :=
  {| Views.MONTHLY := "MONTHLY";
     Views.YEARLY_ACCOUNT := "YEARLY_ACCOUNT";
     Views.YEARLY_CURRENCY := "YEARLY_CURRENCY";
     Views.NETWORTH_CURRENT := "NETWORTH_CURRENT";
     Views.NETWORTH_PROJECTED := "NETWORTH_PROJECTED";
     Views.ALL_TRANSACTIONS := "ALL_TRANSACTIONS";
     Views.CALENDAR := "CALENDAR" |}.

Definition request_for (page : string) : Views.HttpRequest :=
  {| Views.user :=
       {| Views.settings := Some {| Views.start_page := page |} |} |}.

(** A request of an authenticated user who has no settings row. *)
Definition request_without_settings : Views.HttpRequest :=
  {| Views.user := {| Views.settings := None |} |}.

End Spec.

(* ===================================================================== *)
(** * Vocabulary of the further properties *)
(* ===================================================================== *)

Module MoreSpec.
Import Py Checks Spec.

(** The eight names the three environment checks pass to [os.getenv]. *)
Definition read_by_checks : list string :=
  [ "SECRET_KEY"; "SQL_DATABASE";
    "TASK_WORKERS"; "SESSION_EXPIRY_TIME"; "INTERNAL_PORT";
    "DJANGO_VITE_DEV_SERVER_PORT";
    "ENABLE_SOFT_DELETE"; "KEEP_DELETED_TRANSACTIONS_FOR" ].

(** An environment the three environment checks have nothing to say about. *)
Definition well_configured (env : gmap string string) : Prop :=
  (forall name description, In (name, description) REQUIRED_ENV_VARS ->
     exists v, env !! name = Some v /\ v <> "")
  /\ (forall name description v, In (name, description) INT_ENV_VARS ->
        env !! name = Some v -> int_fails v = false)
  /\ (soft_delete_enabled env ->
      forall v, env !! "KEEP_DELETED_TRANSACTIONS_FOR" = Some v ->
                int_fails v = false).

(** The world with one more binding in its environment. *)
Definition setenv (name v : string) (w : World) : World :=
  {| environ := <[name := v]> (environ w); conf := conf w;
     globals := globals w |}.

(** The codes of the three environment checks. *)
Definition env_codes : list (option string) :=
  [ Some "wygiwyh.E001"; Some "wygiwyh.E002"; Some "wygiwyh.E003" ].

(** The row a user's settings are read from: the stored one, or the
    defaults a first [get_or_create] inserts. *)
Definition row_of (defaults : Site.UserSettingsRow) (user : Z)
    (s : Site.State) : Site.UserSettingsRow :=
  default defaults (Site.usersettings s !! user).

(** A form to run the form views on: it accepts any non-empty submission
    and stores an account under the primary key 7. *)
Definition sample_form : Site.Form :=
  {| Site.is_valid := fun post _ => negb (Nat.eqb (length post) 0);
     Site.save := fun post s =>
       {| Site.usersettings := Site.usersettings s;
          Site.accounts :=
            <[7 := {| Site.username := "ada"; Site.is_superuser := false |}]>
              (Site.accounts s);
          Site.flash := Site.flash s |} |}.

(** A state with one superuser (1) and one other user (2), who has no
    settings row yet. *)
Definition sample_state : Site.State :=
  {| Site.usersettings :=
       {[ 1 := {| Site.fields := {| Views.start_page := "MONTHLY" |};
                  Site.hide_amounts := false; Site.mute_sounds := true |} ]};
     Site.accounts :=
       {[ 1 := {| Site.username := "root"; Site.is_superuser := true |};
          2 := {| Site.username := "bob"; Site.is_superuser := false |} ]};
     Site.flash := [] |}.

Definition sample_defaults : Site.UserSettingsRow :=
  {| Site.fields := {| Views.start_page := "MONTHLY" |};
     Site.hide_amounts := false; Site.mute_sounds := false |}.

Definition request_by (method : string) (user : Z) (superuser : bool)
    (post : list (string * string)) : Site.Request :=
  {| Site.method := method; Site.user_id := user;
     Site.user_is_superuser := superuser; Site.POST := post |}.

End MoreSpec.

(* ===================================================================== *)
(** * Proof steps used more than once *)
(* ===================================================================== *)

Module Tactics.
Import Py Checks Views.

(** Unfold one layer of the monad and of the environment accessors. *)
Ltac step :=
  unfold mbind, M_bind, mret, M_ret, bind, ret, raise, gets, lift,
    try_except_ValueError, getenv, getenv_default, load_global; simpl.

(** A statement about [lower_char c], by the 256 values of [c]. *)
Ltac by_cases_on_char c :=
  destruct c as [[] [] [] [] [] [] [] []]; vm_compute; intros H;
  first [discriminate H | by left | by right].

(** From [NoDup (members sp)] to the inequalities between its members. *)
Ltac split_members H :=
  unfold members in H;
  repeat (let Hn := fresh "Hn" in
          apply NoDup_cons in H as [Hn H];
          rewrite ?not_elem_of_cons in Hn;
          destruct_and? Hn).

(** Decide the tests of an if/elif chain on strings one after the other. *)
Ltac walk_chain :=
  repeat match goal with
         | |- context [String.eqb ?a ?b] =>
             destruct (String.eqb_spec a b); try congruence
         end.

End Tactics.

(* ===================================================================== *)
(** * Facts about the Python fragment *)
(* ===================================================================== *)

Module PyFacts.
Import Py Spec.

Example int_0 : int "0" = Return 0.
Proof. reflexivity. Qed.
Example int_neg5 : int "-5" = Return (-5).
Proof. reflexivity. Qed.
Example int_1000 : int "1000" = Return 1000.
Proof. reflexivity. Qed.
Example int_padded : int "  +1_000 " = Return 1000.
Proof. reflexivity. Qed.
Example int_abc : int_fails "abc" = true.
Proof. reflexivity. Qed.
Example int_12_5 : int_fails "12.5" = true.
Proof. reflexivity. Qed.
Example int_empty : int_fails "" = true.
Proof. reflexivity. Qed.
Example int_double_underscore : int_fails "1__0" = true.
Proof. reflexivity. Qed.
Example int_leading_underscore : int_fails "_1" = true.
Proof. reflexivity. Qed.
Example int_sign_gap : int_fails "- 5" = true.
Proof. reflexivity. Qed.
Example lower_mixed : lower "TrUe" = "true".
Proof. reflexivity. Qed.

(** [int] raises nothing but [ValueError]. *)
Lemma int_cases (s : string) :
  (exists z, int s = Return z /\ int_fails s = false)
  \/ (exists m, int s = Raise (ValueError m) /\ int_fails s = true).
Proof.
  unfold int_fails, int.
  destruct (lstrip s) as [|c r]; simpl.
  - right. eexists. split; reflexivity.
  - set (p := match c with
              | "+"%char => (false, r)
              | "-"%char => (true, r)
              | _ => (false, String c r)
              end).
    destruct p as [negative digits].
    destruct (scan_digits digits 0 0%nat true) as [[v n]|].
    + destruct (int_max_str_digits <? n)%nat.
      * right. eexists. split; reflexivity.
      * left. eexists. split; reflexivity.
    + right. eexists. split; reflexivity.
Qed.

(** ** The frame of a computation *)

Lemma preserves_ret {S A} (a : A) : preserves_state (ret a : M S A).
Proof. intros s. reflexivity. Qed.

Lemma preserves_raise {S A} (e : exn) : preserves_state (raise e : M S A).
Proof. intros s. reflexivity. Qed.

Lemma preserves_gets {S A} (f : S -> A) : preserves_state (gets f).
Proof. intros s. reflexivity. Qed.

Lemma preserves_lift {S A} (o : outcome A) : preserves_state (lift o : M S A).
Proof. intros s. reflexivity. Qed.

Lemma preserves_bind {S A B} (m : M S A) (k : A -> M S B) :
  preserves_state m -> (forall a, preserves_state (k a)) ->
  preserves_state (bind m k).
Proof.
  intros Hm Hk s. unfold bind. specialize (Hm s).
  destruct (m s) as [[a|e] s']; simpl in *; subst s'.
  - apply Hk.
  - reflexivity.
Qed.

Lemma preserves_try {S A} (body handler : M S A) :
  preserves_state body -> preserves_state handler ->
  preserves_state (try_except_ValueError body handler).
Proof.
  intros Hb Hh s. unfold try_except_ValueError. specialize (Hb s).
  destruct (body s) as [[a|[]] s']; simpl in *; subst s'; try reflexivity.
  apply Hh.
Qed.

Lemma preserves_for_in {S A B} (body : B -> A -> M S B) (l : list A) :
  (forall acc x, preserves_state (body acc x)) ->
  forall acc, preserves_state (for_in l body acc).
Proof.
  intros Hbody. induction l as [|x rest IH]; intros acc.
  - apply preserves_ret.
  - simpl. apply preserves_bind; auto.
Qed.

(** A loop whose body appends [g x] to the accumulator, in a state it
    leaves alone, appends the contributions in the order of the list. *)
Lemma for_in_appends {S A B} (body : list B -> A -> M S (list B))
    (g : A -> list B) (s : S) (l : list A) :
  (forall acc x, body acc x s = (Return (acc ++ g x), s)) ->
  forall acc, for_in l body acc s = (Return (acc ++ flat_map g l), s).
Proof.
  intros Hbody. induction l as [|x rest IH]; intros acc; simpl.
  - unfold mret, M_ret, ret. by rewrite app_nil_r.
  - unfold mbind, M_bind, bind. rewrite Hbody, IH. by rewrite app_assoc.
Qed.

End PyFacts.

(* ===================================================================== *)
(** * The startup checks *)
(* ===================================================================== *)

Module ChecksFacts.
Import Py Checks Spec PyFacts Tactics.

(** ** What each check evaluates to *)

Lemma required_body_run (w : World) acc item :
  required_body acc item w = (Return (acc ++ required_finding (environ w) item), w).
Proof.
  destruct item as [var_name description]. unfold required_body, required_finding.
  step. destruct (not_value (environ w !! var_name)); [done|].
  by rewrite app_nil_r.
Qed.

Lemma check_required_env_vars_run (w : World) :
  check_required_env_vars w
  = (Return (flat_map (required_finding (environ w)) REQUIRED_ENV_VARS), w).
Proof.
  unfold check_required_env_vars.
  by rewrite (for_in_appends _ (required_finding (environ w)))
    by apply required_body_run.
Qed.

Lemma int_body_run (w : World) acc item :
  int_body acc item w = (Return (acc ++ int_finding (environ w) item), w).
Proof.
  destruct item as [var_name description]. unfold int_body, int_finding.
  step. destruct (environ w !! var_name) as [v|]; step.
  - destruct (int_cases v) as [(z & -> & ->)|(m & -> & ->)]; [|done].
    by rewrite app_nil_r.
  - by rewrite app_nil_r.
Qed.

Lemma check_int_env_vars_run (w : World) :
  check_int_env_vars w
  = (Return (flat_map (int_finding (environ w)) INT_ENV_VARS), w).
Proof.
  unfold check_int_env_vars.
  by rewrite (for_in_appends _ (int_finding (environ w)))
    by apply int_body_run.
Qed.

Lemma check_soft_delete_config_run (w : World) :
  check_soft_delete_config w = (Return (soft_delete_finding (environ w)), w).
Proof.
  unfold check_soft_delete_config, soft_delete_finding. step.
  destruct (String.eqb _ "true"); [|done]. step.
  destruct (environ w !! "KEEP_DELETED_TRANSACTIONS_FOR") as [v|]; [|done].
  step. by destruct (int_cases v) as [(z & -> & ->)|(m & -> & ->)].
Qed.

Lemma check_oidc_vars_unbound (w : World) :
  globals w !! "settings" = None ->
  check_oidc_vars w = (Raise (NameError "settings"), w).
Proof. intros H. unfold check_oidc_vars. step. by rewrite H. Qed.

Lemma checks_globals_settings : checks_globals !! "settings" = None.
Proof. reflexivity. Qed.

(** ** The frame of each check *)

Lemma check_required_env_vars_frame : preserves_state check_required_env_vars.
Proof. intros w. by rewrite check_required_env_vars_run. Qed.

Lemma check_int_env_vars_frame : preserves_state check_int_env_vars.
Proof. intros w. by rewrite check_int_env_vars_run. Qed.

Lemma check_soft_delete_config_frame : preserves_state check_soft_delete_config.
Proof. intros w. by rewrite check_soft_delete_config_run. Qed.

Lemma load_global_frame name : preserves_state (load_global name).
Proof. intros w. unfold load_global. by destruct (globals w !! name). Qed.

Lemma getattr_OIDC_ONLY_frame o : preserves_state (getattr_OIDC_ONLY o).
Proof. destruct o; (apply preserves_raise || apply preserves_gets). Qed.

Lemma getattr_SOCIALACCOUNT_PROVIDERS_frame o :
  preserves_state (getattr_SOCIALACCOUNT_PROVIDERS o).
Proof. destruct o; (apply preserves_raise || apply preserves_gets). Qed.

Lemma check_oidc_vars_frame : preserves_state check_oidc_vars.
Proof.
  unfold check_oidc_vars.
  apply preserves_bind; [apply load_global_frame|intros settings].
  apply preserves_bind; [apply getattr_OIDC_ONLY_frame|intros oidc_only].
  apply preserves_bind.
  - destruct oidc_only; [|apply preserves_ret].
    apply preserves_bind; [apply load_global_frame|intros settings'].
    apply preserves_bind;
      [apply getattr_SOCIALACCOUNT_PROVIDERS_frame|intros; apply preserves_ret].
  - intros []; apply preserves_ret.
Qed.

Lemma registered_frame check :
  In check registered_checks -> preserves_state check.
Proof.
  simpl. intros [<-|[<-|[<-|[<-|[]]]]].
  - apply check_required_env_vars_frame.
  - apply check_int_env_vars_frame.
  - apply check_soft_delete_config_frame.
  - apply check_oidc_vars_frame.
Qed.

Lemma run_checks_frame checks :
  Forall (fun check => In check registered_checks) checks ->
  preserves_state (run_checks checks).
Proof.
  intros Hall. unfold run_checks. generalize (@nil CheckMessage).
  induction Hall as [|check rest Hc _ IH]; intros acc.
  - apply preserves_ret.
  - simpl. apply preserves_bind; [|intros acc'; apply IH].
    unfold run_body. apply preserves_bind; [by apply registered_frame|].
    intros; apply preserves_ret.
Qed.

(** ** The pass *)

Lemma run_env_checks (w : World) :
  run_checks env_checks w
  = (Return (flat_map (required_finding (environ w)) REQUIRED_ENV_VARS
             ++ flat_map (int_finding (environ w)) INT_ENV_VARS
             ++ soft_delete_finding (environ w)), w).
Proof.
  unfold run_checks, env_checks, run_body. simpl. step.
  rewrite check_required_env_vars_run, check_int_env_vars_run,
    check_soft_delete_config_run.
  by rewrite app_assoc.
Qed.

(** In the module as it is written, the pass over the four registered
    checks ends in the [NameError] of the last one. *)
Lemma run_registered_checks_after_import env c :
  run_checks registered_checks (after_import env c)
  = (Raise (NameError "settings"), after_import env c).
Proof.
  unfold run_checks, registered_checks, run_body. simpl. step.
  rewrite check_required_env_vars_run, check_int_env_vars_run,
    check_soft_delete_config_run.
  by rewrite check_oidc_vars_unbound.
Qed.

(** ** The case of a flag *)

Lemma lower_char_t c : lower_char c = "t"%char -> c = "t"%char \/ c = "T"%char.
Proof. by_cases_on_char c. Qed.
Lemma lower_char_r c : lower_char c = "r"%char -> c = "r"%char \/ c = "R"%char.
Proof. by_cases_on_char c. Qed.
Lemma lower_char_u c : lower_char c = "u"%char -> c = "u"%char \/ c = "U"%char.
Proof. by_cases_on_char c. Qed.
Lemma lower_char_e c : lower_char c = "e"%char -> c = "e"%char \/ c = "E"%char.
Proof. by_cases_on_char c. Qed.

Lemma lower_is_true (v : string) :
  String.eqb (lower v) "true" = true <-> In v true_spellings.
Proof.
  split.
  - intros H. apply String.eqb_eq in H.
    destruct v as [|c1 [|c2 [|c3 [|c4 [|c5 v]]]]]; simpl in H; try discriminate H.
    injection H as H1 H2 H3 H4.
    destruct (lower_char_t _ H1) as [->| ->], (lower_char_r _ H2) as [->| ->],
      (lower_char_u _ H3) as [->| ->], (lower_char_e _ H4) as [->| ->];
      simpl; tauto.
  - unfold true_spellings. simpl.
    intros H. repeat (destruct H as [<-|H]; [reflexivity|]). destruct H.
Qed.

Lemma enabled_flag (env : gmap string string) :
  String.eqb (lower (default "false" (env !! "ENABLE_SOFT_DELETE"))) "true" = true
  <-> soft_delete_enabled env.
Proof.
  unfold soft_delete_enabled. rewrite lower_is_true.
  destruct (env !! "ENABLE_SOFT_DELETE") as [flag|]; simpl.
  - split; [intros H; by exists flag | by intros (? & [= <-] & H)].
  - split; [intros H|by intros (? & [=] & _)].
    repeat (destruct H as [H|H]; [discriminate H|]). destruct H.
Qed.

(** ** Reading messages *)

Lemma prefix_app (s t : string) : String.prefix s (s +:+ t) = true.
Proof.
  induction s as [|c s IH]; simpl; [by destruct t|].
  by destruct (ascii_dec c c).
Qed.

Lemma mentions_here (s t : string) : mentions s (s +:+ t) = true.
Proof.
  destruct s; simpl.
  - by destruct t.
  - destruct (ascii_dec a a); [|done]. by rewrite prefix_app.
Qed.

Lemma mentions_app (p s t : string) : mentions s (p +:+ s +:+ t) = true.
Proof.
  induction p as [|c p IH].
  - exact (mentions_here s t).
  - change (String c p +:+ s +:+ t) with (String c (p +:+ s +:+ t)).
    simpl. rewrite IH. apply orb_true_r.
Qed.

Lemma mentions_append_l (p hay s : string) :
  mentions s hay = true -> mentions s (p +:+ hay) = true.
Proof.
  intros H. induction p as [|c p IH]; [exact H|].
  change (String c p +:+ hay) with (String c (p +:+ hay)).
  simpl. rewrite IH. apply orb_true_r.
Qed.

Lemma E002_mentions_value (var_name description value : string) :
  mentions value (msg (E002 var_name description value)) = true.
Proof.
  change (msg (E002 var_name description value))
    with ("Environment variable '" +:+ var_name +:+
          "' must be a valid integer, got '" +:+ value +:+ "'.").
  do 3 apply mentions_append_l. apply mentions_here.
Qed.

Lemma prefix_app_l (p s t : string) :
  String.prefix s t = true -> String.prefix (p +:+ s) (p +:+ t) = true.
Proof.
  intros H. induction p as [|c p IH]; [exact H|].
  simpl. by destruct (ascii_dec c c).
Qed.

Lemma E002_about_name (var_name description value : string) :
  about var_name (E002 var_name description value) = true.
Proof.
  unfold about.
  change (msg (E002 var_name description value))
    with ("Environment variable '" +:+ var_name +:+
          "' must be a valid integer, got '" +:+ value +:+ "'.").
  do 2 apply prefix_app_l. reflexivity.
Qed.

(** ** Membership in what the loops return *)

Lemma in_int_findings (env : gmap string string) (f : CheckMessage) :
  In f (flat_map (int_finding env) INT_ENV_VARS) <->
  exists var_name description value,
    In (var_name, description) INT_ENV_VARS
    /\ env !! var_name = Some value
    /\ int_fails value = true
    /\ f = E002 var_name description value.
Proof.
  rewrite in_flat_map. split.
  - intros ([n d] & Hin & Hf). unfold int_finding in Hf. simpl in Hf.
    destruct (env !! n) as [v|] eqn:Hv; [|done].
    destruct (int_fails v) eqn:Hfail; [|done].
    destruct Hf as [<-|[]]. by exists n, d, v.
  - intros (n & d & v & Hin & Hv & Hfail & ->).
    exists (n, d). split; [done|].
    unfold int_finding. simpl. rewrite Hv, Hfail. by left.
Qed.

(** ** C1 *)

(** C1 (code defect). The claim asks every registered check to return a
    list for every environment and every resolved configuration. The three
    checks that read the environment do. [check_oidc_vars] does not: its body
    reads the free name [settings], which no statement of checks.py binds, so
    every call raises [NameError] before any finding is built. *)
Theorem check_oidc_vars_raises_NameError
    (env : gmap string string) (c : Settings) :
  let w := after_import env c in
  (exists errors, check_required_env_vars w = (Return errors, w))
  /\ (exists errors, check_int_env_vars w = (Return errors, w))
  /\ (exists errors, check_soft_delete_config w = (Return errors, w))
  /\ check_oidc_vars w = (Raise (NameError "settings"), w).
Proof.
  intros w. split; [|split; [|split]].
  - eexists. apply check_required_env_vars_run.
  - eexists. apply check_int_env_vars_run.
  - eexists. apply check_soft_delete_config_run.
  - by apply check_oidc_vars_unbound.
Qed.

(** ** C2 *)

(** C2, as stated, fails: with SECRET_KEY unbound, the required-value check
    returns no finding whose code is APP.E001. *)
Lemma required_check_never_says_APP_E001 :
  ~ (exists errors f,
       fst (check_required_env_vars (after_import ∅ no_oidc)) = Return errors
       /\ In f errors
       /\ id f = Some "APP.E001"
       /\ mentions "SECRET_KEY" (msg f) = true).
Proof.
  intros (errors & f & Hrun & Hin & Hid & _).
  rewrite check_required_env_vars_run in Hrun. vm_compute in Hrun.
  injection Hrun as <-. simpl in Hin.
  destruct Hin as [<-|[<-|[]]]; discriminate.
Qed.

(** C2 (amended: the code is wygiwyh.E001). For every pair of the required
    list, the check returns a list of findings such that: if the environment
    does not bind the name, or binds it to the empty string, the list has an
    error finding with code wygiwyh.E001 whose message mentions the name; if
    the environment binds the name to a non-empty string, whatever it is, no
    finding of the list mentions the name. *)
Theorem required_check_spec (w : World) (name description : string) :
  In (name, description) REQUIRED_ENV_VARS ->
  exists errors,
    check_required_env_vars w = (Return errors, w)
    /\ (environ w !! name = None \/ environ w !! name = Some "" ->
        exists f, In f errors
                  /\ level f = ERROR
                  /\ id f = Some "wygiwyh.E001"
                  /\ mentions name (msg f) = true)
    /\ (forall v, environ w !! name = Some v -> v <> "" ->
        forall f, In f errors -> mentions name (msg f) = false).
Proof.
  intros Hin. eexists. split; [apply check_required_env_vars_run|].
  assert (Hnv : forall o : option string,
             not_value o = true <-> o = None \/ o = Some "").
  { intros [v|]; simpl; [|intuition congruence].
    destruct (String.eqb_spec v ""); intuition congruence. }
  simpl in Hin. destruct Hin as [[= <- <-]|[[= <- <-]|[]]];
    unfold required_finding; simpl; split.
  - intros Hmiss. apply Hnv in Hmiss. rewrite Hmiss. eexists.
    split; [by left|]. by vm_compute.
  - intros v Hv Hne f Hf.
    assert (Hs : not_value (environ w !! "SECRET_KEY") = false).
    { rewrite Hv. simpl. by apply String.eqb_neq. }
    rewrite Hs in Hf. simpl in Hf.
    destruct (not_value (environ w !! "SQL_DATABASE")); simpl in Hf;
      [destruct Hf as [<-|[]]; by vm_compute | done].
  - intros Hmiss. apply Hnv in Hmiss. rewrite Hmiss. eexists.
    split; [apply in_or_app; right; by left|]. by vm_compute.
  - intros v Hv Hne f Hf.
    assert (Hs : not_value (environ w !! "SQL_DATABASE") = false).
    { rewrite Hv. simpl. by apply String.eqb_neq. }
    rewrite Hs in Hf. rewrite app_nil_r in Hf.
    destruct (not_value (environ w !! "SECRET_KEY")); simpl in Hf;
      [destruct Hf as [<-|[]]; by vm_compute | done].
Qed.

Lemma required_check_spec_witness :
  In ("SQL_DATABASE", "The name of your postgres database.") REQUIRED_ENV_VARS
  /\ exists errors,
       check_required_env_vars (after_import scenario_env no_oidc)
       = (Return errors, after_import scenario_env no_oidc)
       /\ exists f, In f errors /\ id f = Some "wygiwyh.E001"
                    /\ mentions "SQL_DATABASE" (msg f) = true.
Proof.
  assert (Hin : In ("SQL_DATABASE", "The name of your postgres database.")
                   REQUIRED_ENV_VARS) by (simpl; tauto).
  split; [exact Hin|].
  destruct (required_check_spec (after_import scenario_env no_oidc) _ _ Hin)
    as (errors & Hrun & Hmissing & _).
  exists errors. split; [exact Hrun|].
  destruct Hmissing as (f & Hf & _ & Hid & Hm); [right; reflexivity|].
  exists f. tauto.
Defined.

(** ** C7 *)

(** C7. No check mutates the environment or the configuration: whatever
    the world a registered check is called in, the world it leaves is that
    same world, so every environment binding and every resolved setting reads
    as before; the returned outcome is the only effect. *)
Theorem checks_do_not_mutate (w : World) :
  Forall
    (fun check =>
       let w' := snd (check w) in
       w' = w
       /\ (forall name, environ w' !! name = environ w !! name)
       /\ conf w' = conf w)
    registered_checks.
Proof.
  apply Forall_forall. intros check Hin.
  apply list_elem_of_In in Hin.
  pose proof (registered_frame check Hin w) as ->. done.
Qed.

(** ** C3 *)

(** C3, as stated, fails: with TASK_WORKERS bound to "abc", the
    integer-format check returns no finding whose code is APP.E002. *)
Lemma int_check_never_says_APP_E002 :
  ~ (exists errors f,
       fst (check_int_env_vars
              (after_import {[ "TASK_WORKERS" := "abc" ]} no_oidc))
       = Return errors
       /\ In f errors
       /\ id f = Some "APP.E002"
       /\ mentions "abc" (msg f) = true).
Proof.
  intros (errors & f & Hrun & Hin & Hid & _).
  rewrite check_int_env_vars_run in Hrun. vm_compute in Hrun.
  injection Hrun as <-. simpl in Hin.
  destruct Hin as [<-|[]]; discriminate.
Qed.

(** C3 (amended: the code is wygiwyh.E002). [int] rejects "", "abc" and
    "12.5" and accepts "0", "-5" and "1000". For every pair of the integer
    list, the check returns a list of findings such that: if the environment
    binds the name to a string that [int] rejects (the empty string
    included), the list has an error finding with code wygiwyh.E002 that is
    about the name and contains the bound value verbatim; if it binds the
    name to a string that [int] accepts, or does not bind it, no finding of
    the list is about the name. *)
Theorem int_check_spec (w : World) (name description : string) :
  In (name, description) INT_ENV_VARS ->
  (int_fails "" = true /\ int_fails "abc" = true /\ int_fails "12.5" = true
   /\ int "0" = Return 0 /\ int "-5" = Return (-5) /\ int "1000" = Return 1000)
  /\ exists errors,
       check_int_env_vars w = (Return errors, w)
       /\ (forall v, environ w !! name = Some v -> int_fails v = true ->
           exists f, In f errors
                     /\ level f = ERROR
                     /\ id f = Some "wygiwyh.E002"
                     /\ about name f = true
                     /\ mentions v (msg f) = true)
       /\ (forall v, environ w !! name = Some v -> int_fails v = false ->
           forall f, In f errors -> about name f = false)
       /\ (environ w !! name = None ->
           forall f, In f errors -> about name f = false).
Proof.
  intros Hin. split; [by vm_compute|].
  eexists. split; [apply check_int_env_vars_run|].
  assert (Hother : forall f,
             In f (flat_map (int_finding (environ w)) INT_ENV_VARS) ->
             about name f = true ->
             exists v, environ w !! name = Some v /\ int_fails v = true).
  { intros f Hf Habout. apply in_int_findings in Hf.
    destruct Hf as (n & d & v & Hnd & Hv & Hfail & ->).
    exists v. split; [|done].
    simpl in Hin, Hnd.
    destruct Hin as [[= <- <-]|[[= <- <-]|[[= <- <-]|[[= <- <-]|[]]]]];
    destruct Hnd as [[= <- <-]|[[= <- <-]|[[= <- <-]|[[= <- <-]|[]]]]];
      first [exact Hv | by vm_compute in Habout]. }
  split; [|split].
  - intros v Hv Hfail. exists (E002 name description v).
    split; [apply in_int_findings; by exists name, description, v|].
    split; [done|]. split; [done|].
    split; [apply E002_about_name | apply E002_mentions_value].
  - intros v Hv Hok f Hf.
    destruct (about name f) eqn:Habout; [|done].
    destruct (Hother f Hf Habout) as (v' & Hv' & Hfail). congruence.
  - intros Hnone f Hf.
    destruct (about name f) eqn:Habout; [|done].
    destruct (Hother f Hf Habout) as (v' & Hv' & _). congruence.
Qed.

Lemma int_check_spec_witness :
  In ("TASK_WORKERS", "How many workers to have for async tasks.") INT_ENV_VARS
  /\ exists errors,
       check_int_env_vars (after_import scenario_env no_oidc)
       = (Return errors, after_import scenario_env no_oidc)
       /\ exists f, In f errors /\ id f = Some "wygiwyh.E002"
                    /\ mentions "4a" (msg f) = true.
Proof.
  assert (Hin : In ("TASK_WORKERS", "How many workers to have for async tasks.")
                   INT_ENV_VARS) by (simpl; tauto).
  split; [exact Hin|].
  destruct (int_check_spec (after_import scenario_env no_oidc) _ _ Hin)
    as (_ & errors & Hrun & Hbad & _).
  exists errors. split; [exact Hrun|].
  destruct (Hbad "4a") as (f & Hf & _ & Hid & _ & Hm);
    [reflexivity|reflexivity|].
  exists f. tauto.
Defined.

(** ** C4 *)

(** C4, as stated, fails: with ENABLE_SOFT_DELETE="true" and
    KEEP_DELETED_TRANSACTIONS_FOR="abc", the one finding of the soft-delete
    check does not carry the code APP.E003. *)
Lemma soft_delete_check_never_says_APP_E003 :
  ~ (exists f,
       fst (check_soft_delete_config
              (after_import
                 {[ "ENABLE_SOFT_DELETE" := "true";
                    "KEEP_DELETED_TRANSACTIONS_FOR" := "abc" ]} no_oidc))
       = Return [f]
       /\ id f = Some "APP.E003").
Proof.
  intros (f & Hrun & Hid).
  rewrite check_soft_delete_config_run in Hrun. vm_compute in Hrun.
  injection Hrun as <-. discriminate.
Qed.

(** C4 (amended: the code is wygiwyh.E003). The soft-delete check returns
    a list of findings. It takes the flag as set exactly when
    ENABLE_SOFT_DELETE is bound to one of the sixteen spellings of "true"
    (unbound, or bound to anything else, is unset). With the flag set and
    KEEP_DELETED_TRANSACTIONS_FOR bound to a string [int] rejects, the list
    is exactly one error finding, with code wygiwyh.E003, quoting the value;
    with the flag unset, or the variable unbound, or bound to a string [int]
    accepts, the list is empty. *)
Theorem soft_delete_check_spec (w : World) :
  exists errors,
    check_soft_delete_config w = (Return errors, w)
    /\ (soft_delete_enabled (environ w) ->
        forall v,
          environ w !! "KEEP_DELETED_TRANSACTIONS_FOR" = Some v ->
          int_fails v = true ->
          exists f, errors = [f]
                    /\ level f = ERROR
                    /\ id f = Some "wygiwyh.E003"
                    /\ mentions v (msg f) = true)
    /\ (~ soft_delete_enabled (environ w) -> errors = [])
    /\ (environ w !! "KEEP_DELETED_TRANSACTIONS_FOR" = None -> errors = [])
    /\ (forall v,
          environ w !! "KEEP_DELETED_TRANSACTIONS_FOR" = Some v ->
          int_fails v = false -> errors = []).
Proof.
  eexists. split; [apply check_soft_delete_config_run|].
  unfold soft_delete_finding.
  pose proof (enabled_flag (environ w)) as Hflag.
  destruct (String.eqb _ "true").
  - split; [|split; [|split]].
    + intros _ v -> ->. exists (E003 v). split; [done|]. split; [done|].
      split; [done|].
      change (msg (E003 v))
        with ("Environment variable 'KEEP_DELETED_TRANSACTIONS_FOR' must be a valid integer when ENABLE_SOFT_DELETE is enabled, got '"
              +:+ v +:+ "'.").
      apply mentions_append_l, mentions_here.
    + intros Hoff. destruct Hoff. by apply Hflag.
    + by intros ->.
    + by intros v -> ->.
  - split; [|done]. intros Hon. apply Hflag in Hon. discriminate Hon.
Qed.

Lemma soft_delete_check_spec_witness :
  exists f,
    check_soft_delete_config
      (after_import
         {[ "ENABLE_SOFT_DELETE" := "TRUE";
            "KEEP_DELETED_TRANSACTIONS_FOR" := "abc" ]} no_oidc)
    = (Return [f],
       after_import
         {[ "ENABLE_SOFT_DELETE" := "TRUE";
            "KEEP_DELETED_TRANSACTIONS_FOR" := "abc" ]} no_oidc)
    /\ id f = Some "wygiwyh.E003".
Proof.
  destruct (soft_delete_check_spec
              (after_import
                 {[ "ENABLE_SOFT_DELETE" := "TRUE";
                    "KEEP_DELETED_TRANSACTIONS_FOR" := "abc" ]} no_oidc))
    as (errors & Hrun & Hon & _).
  destruct (Hon) with (v := "abc") as (f & -> & _ & Hid & _);
    [ exists "TRUE"; split; [reflexivity | simpl; tauto]
    | reflexivity | reflexivity | ].
  exists f. split; [exact Hrun|exact Hid].
Defined.

(** ** C5 *)

(** C5 (code defect, the one of C1). The claim asks [check_oidc_vars] for
    one finding when OIDC_ONLY is true and the number of providers is not
    one, and for an empty list otherwise. In the module as it is written the
    check returns no list for any state of the resolved settings, OIDC_ONLY
    true with no provider included: it raises [NameError] on reading
    [settings], before it looks at either value. *)
Theorem oidc_check_emits_nothing (env : gmap string string) (c : Settings) :
  check_oidc_vars (after_import env c)
  = (Raise (NameError "settings"), after_import env c)
  /\ ~ (exists errors,
          fst (check_oidc_vars (after_import env c)) = Return errors)
  /\ fst (check_oidc_vars (after_import env oidc_only_no_provider))
     = Raise (NameError "settings").
Proof.
  assert (Hraises : forall c',
            check_oidc_vars (after_import env c')
            = (Raise (NameError "settings"), after_import env c'))
    by (intros c'; by apply check_oidc_vars_unbound).
  split; [apply Hraises|]. split.
  - intros (errors & Hrun). by rewrite Hraises in Hrun.
  - by rewrite Hraises.
Qed.

(** ** C6 *)

(** C6 (code defect, the one of C1). The claim asks two runs of the pass
    over all four checks for the same list of findings. In the module as it
    is written that pass returns no list, the first time or the second: both
    runs end in the [NameError] of [check_oidc_vars], whatever the
    environment and the resolved settings. The world is left as it was, so
    the two runs do fail alike; and the pass over the three checks that read
    the environment does return the same list twice. *)
Theorem full_pass_returns_no_list (env : gmap string string) (c : Settings) :
  run_checks registered_checks (after_import env c)
  = (Raise (NameError "settings"), after_import env c)
  /\ run_checks registered_checks
       (snd (run_checks registered_checks (after_import env c)))
     = (Raise (NameError "settings"), after_import env c)
  /\ ~ (exists errors,
          fst (run_checks registered_checks (after_import env c))
          = Return errors)
  /\ (exists errors,
        run_checks env_checks (after_import env c)
        = (Return errors, after_import env c)
        /\ run_checks env_checks
             (snd (run_checks env_checks (after_import env c)))
           = (Return errors, after_import env c)).
Proof.
  pose proof (run_registered_checks_after_import env c) as Hfull.
  split; [exact Hfull|]. split; [by rewrite Hfull|]. split.
  - intros (errors & Hrun). by rewrite Hfull in Hrun.
  - eexists. split; [apply run_env_checks|].
    rewrite (run_env_checks (after_import env c)). cbn [snd].
    apply run_env_checks.
Qed.

(** ** C8 *)

(** C8, as stated, fails on the scenario's environment: no finding of the
    pass over the environment checks carries the code APP.E001, and the pass
    over all four registered checks returns no list at all. *)
Lemma scenario_has_no_APP_E001 :
  ~ (exists errors f,
       fst (run_checks env_checks (after_import scenario_env no_oidc))
       = Return errors
       /\ In f errors
       /\ id f = Some "APP.E001")
  /\ ~ (exists errors,
          fst (run_checks registered_checks (after_import scenario_env no_oidc))
          = Return errors).
Proof.
  split.
  - intros (errors & f & Hrun & Hin & Hid).
    rewrite run_env_checks in Hrun. vm_compute in Hrun.
    injection Hrun as <-. simpl in Hin.
    destruct Hin as [<-|[<-|[]]]; discriminate.
  - intros (errors & Hrun).
    by rewrite run_registered_checks_after_import in Hrun.
Qed.

(** C8 (amended: the codes are wygiwyh.E001 and wygiwyh.E002, and the pass
    is the one over the checks that read the environment). The
    required-value check and the integer-format check each return, for every
    world, the findings of their entries concatenated in the declaration
    order of their list. For the environment SECRET_KEY="x",
    SQL_DATABASE="", TASK_WORKERS="4a", the pass over the environment checks
    returns exactly two findings: the wygiwyh.E001 finding for SQL_DATABASE,
    then the wygiwyh.E002 finding for TASK_WORKERS, which mentions "4a". *)
Theorem findings_follow_declaration_order
    (w : World) (c : Settings) (g : gmap string obj) :
  check_required_env_vars w
  = (Return (flat_map (required_finding (environ w)) REQUIRED_ENV_VARS), w)
  /\ check_int_env_vars w
     = (Return (flat_map (int_finding (environ w)) INT_ENV_VARS), w)
  /\ exists f1 f2,
       fst (run_checks env_checks
              {| environ := scenario_env; conf := c; globals := g |})
       = Return [f1; f2]
       /\ f1 = E001 "SQL_DATABASE" "The name of your postgres database."
       /\ id f1 = Some "wygiwyh.E001"
       /\ mentions "SQL_DATABASE" (msg f1) = true
       /\ f2 = E002 "TASK_WORKERS" "How many workers to have for async tasks."
                 "4a"
       /\ id f2 = Some "wygiwyh.E002"
       /\ about "TASK_WORKERS" f2 = true
       /\ mentions "4a" (msg f2) = true.
Proof.
  split; [apply check_required_env_vars_run|].
  split; [apply check_int_env_vars_run|].
  do 2 eexists. rewrite run_env_checks. simpl fst.
  split; [by vm_compute|]. by vm_compute.
Qed.

End ChecksFacts.

(* ===================================================================== *)
(** * The user views *)
(* ===================================================================== *)

Module ViewsFacts.
Import Py Views Spec Tactics.

(** ** C9 *)

(** C9, as stated, fails: the request of an authenticated user who has no
    settings row gets no redirect; [index] raises on reading
    [request.user.settings]. *)
Lemma index_raises_without_settings :
  index start_pages (fun name => "/" +:+ name) request_without_settings
  = Raise (RelatedObjectDoesNotExist "settings")
  /\ ~ (exists url,
          index start_pages (fun name => "/" +:+ name) request_without_settings
          = Return (redirect url)).
Proof.
  split; [reflexivity|]. intros (url & Hrun). discriminate Hrun.
Qed.

(** C9 (amended: the user has a settings row). For a request whose user
    has a settings row, whatever its [start_page], [index] answers with a
    redirect. The members of the enumeration being distinct, each of the
    seven sends the user to its own page, and a value that is none of them
    sends the user to the monthly page, as MONTHLY does. *)
Theorem index_dispatch (sp : StartPageChoices) (reverse : string -> string)
    (request : HttpRequest) (row : UserSettings) :
  NoDup (members sp) ->
  settings (user request) = Some row ->
  let page := start_page row in
  (page = MONTHLY sp ->
   index sp reverse request = Return (redirect (reverse "monthly_index")))
  /\ (page = YEARLY_ACCOUNT sp ->
      index sp reverse request
      = Return (redirect (reverse "yearly_index_account")))
  /\ (page = YEARLY_CURRENCY sp ->
      index sp reverse request
      = Return (redirect (reverse "yearly_index_currency")))
  /\ (page = NETWORTH_CURRENT sp ->
      index sp reverse request
      = Return (redirect (reverse "net_worth_current")))
  /\ (page = NETWORTH_PROJECTED sp ->
      index sp reverse request
      = Return (redirect (reverse "net_worth_projected")))
  /\ (page = ALL_TRANSACTIONS sp ->
      index sp reverse request
      = Return (redirect (reverse "transactions_all_index")))
  /\ (page = CALENDAR sp ->
      index sp reverse request = Return (redirect (reverse "calendar_index")))
  /\ (~ In page (members sp) ->
      index sp reverse request = Return (redirect (reverse "monthly_index")))
  /\ (exists url, index sp reverse request = Return (redirect url)).
Proof.
  intros Hnd Hrow page. split_members Hnd.
  unfold index, user_settings. rewrite Hrow. fold page.
  repeat split; try (intros Hpage; rewrite Hpage; walk_chain).
  - intros Hnot. simpl in Hnot.
    walk_chain; exfalso; apply Hnot; intuition congruence.
  - walk_chain; eexists; reflexivity.
Qed.

Lemma index_dispatch_witness :
  index start_pages (fun name => "/" +:+ name) (request_for "CALENDAR")
  = Return (redirect "/calendar_index")
  /\ index start_pages (fun name => "/" +:+ name) (request_for "")
     = Return (redirect "/monthly_index").
Proof.
  assert (Hnd : NoDup (members start_pages)).
  { unfold members, start_pages. simpl.
    repeat (apply NoDup_cons_2;
            [rewrite ?not_elem_of_cons; repeat split;
             first [discriminate | apply not_elem_of_nil] |]).
    apply NoDup_nil_2. }
  destruct (index_dispatch start_pages (fun name => "/" +:+ name)
              (request_for "CALENDAR") _ Hnd eq_refl)
    as (_ & _ & _ & _ & _ & _ & Hcal & _).
  destruct (index_dispatch start_pages (fun name => "/" +:+ name)
              (request_for "") _ Hnd eq_refl)
    as (_ & _ & _ & _ & _ & _ & _ & Hother & _).
  split.
  - apply Hcal. reflexivity.
  - apply Hother. simpl. intuition discriminate.
Defined.

(** ** toggle_theme *)

Lemma eq_str_true (v : value) (s : string) :
  eq_str v s = true -> v = VStr s.
Proof.
  destruct v; simpl; try discriminate.
  intros H. apply String.eqb_eq in H. by subst.
Qed.

Lemma falsy_is_no_theme (v : value) (s : string) :
  truthy v = false -> s <> "" -> eq_str v s = false.
Proof.
  destruct v as [| | |s'|]; simpl; try done.
  intros H Hne. apply negb_false_iff, String.eqb_eq in H. subst s'.
  apply String.eqb_neq. congruence.
Qed.

(** The theme a call leaves, from what the session held. *)
Lemma toggle_theme_run (s : gmap string value) :
  toggle_theme s
  = (Return no_content,
     <["theme" := VStr (if eq_str (default VNone (s !! "theme")) "wygiwyh_light"
                        then "wygiwyh_dark" else "wygiwyh_light")]> s).
Proof.
  unfold toggle_theme, mbind, M_bind, bind, mret, M_ret, ret, session_get,
    session_setitem, gets, modify.
  destruct (truthy (default VNone (s !! "theme"))) eqn:Htruthy.
  - destruct (s !! "theme") as [v|] eqn:Hv; simpl in Htruthy; [|done].
    unfold session_getitem. rewrite Hv. simpl.
    destruct (eq_str v "wygiwyh_dark") eqn:Hdark.
    + apply eq_str_true in Hdark. by subst v.
    + rewrite Hv. by destruct (eq_str v "wygiwyh_light").
  - rewrite (falsy_is_no_theme _ "wygiwyh_light" Htruthy) by done.
    unfold session_getitem. rewrite lookup_insert_eq. simpl.
    by rewrite insert_insert_eq.
Qed.

(** ** C10 *)

(** C10. A call of [toggle_theme] answers 204 and leaves a session whose
    theme is "wygiwyh_dark" or "wygiwyh_light", whatever was stored before,
    and whose other keys are untouched. From a session whose theme is one of
    the two, a second call gives the first session back. From a session with
    no theme, one call ends with "wygiwyh_light". *)
Theorem toggle_theme_spec (s : gmap string value) :
  (exists s',
     toggle_theme s = (Return no_content, s')
     /\ (exists t, In t themes /\ s' !! "theme" = Some (VStr t))
     /\ (forall key, key <> "theme" -> s' !! key = s !! key))
  /\ (forall t, In t themes -> s !! "theme" = Some (VStr t) ->
      session_after toggle_theme (session_after toggle_theme s) = s)
  /\ (s !! "theme" = None ->
      session_after toggle_theme s !! "theme" = Some (VStr "wygiwyh_light")).
Proof.
  split; [|split].
  - eexists. split; [apply toggle_theme_run|]. split.
    + eexists. rewrite lookup_insert_eq. split; [|reflexivity].
      destruct (eq_str _ _); simpl; tauto.
    + intros key Hkey. by rewrite lookup_insert_ne.
  - intros t Ht Hs. unfold session_after. rewrite !toggle_theme_run. simpl.
    rewrite lookup_insert_eq, Hs, insert_insert_eq. simpl.
    apply insert_id. rewrite Hs.
    simpl in Ht. by destruct Ht as [<-|[<-|[]]].
  - intros Hs. unfold session_after. rewrite toggle_theme_run. simpl.
    by rewrite lookup_insert_eq, Hs.
Qed.

Lemma toggle_theme_spec_witness :
  session_after toggle_theme
    (session_after toggle_theme {[ "theme" := VStr "wygiwyh_light" ]})
  = {[ "theme" := VStr "wygiwyh_light" ]}
  /\ session_after toggle_theme ∅ !! "theme" = Some (VStr "wygiwyh_light").
Proof.
  split.
  - destruct (toggle_theme_spec {[ "theme" := VStr "wygiwyh_light" ]})
      as (_ & Htwice & _).
    apply (Htwice "wygiwyh_light"); [simpl; tauto | reflexivity].
  - destruct (toggle_theme_spec ∅) as (_ & _ & Hunset).
    apply Hunset. reflexivity.
Defined.

End ViewsFacts.

(* ===================================================================== *)
(** * Further properties of the startup checks *)
(* ===================================================================== *)

Module ChecksMore.
Import Py Checks Spec MoreSpec PyFacts Tactics ChecksFacts.

Lemma flat_map_nil {A B} (f : A -> list B) (l : list A) :
  flat_map f l = [] <-> forall x, In x l -> f x = [].
Proof.
  induction l as [|x l IH]; simpl.
  - split; [tauto|done].
  - split.
    + intros H. apply app_eq_nil in H as [Hx Hl].
      intros y [<-|Hy]; [done|]. by apply IH.
    + intros H. rewrite (H x) by tauto. apply IH. intros y Hy. apply H. tauto.
Qed.

Lemma required_finding_nil (env : gmap string string) (item : string * string) :
  required_finding env item = [] <-> exists v, env !! item.1 = Some v /\ v <> "".
Proof.
  unfold required_finding. destruct (env !! item.1) as [v|]; simpl.
  - destruct (String.eqb_spec v "") as [->|Hne].
    + split; [done|]. by intros (v & [= <-] & Hv).
    + split; [by exists v|done].
  - split; [done|]. by intros (v & [=] & _).
Qed.

Lemma int_finding_nil (env : gmap string string) (item : string * string) :
  int_finding env item = [] <->
  forall v, env !! item.1 = Some v -> int_fails v = false.
Proof.
  unfold int_finding. destruct (env !! item.1) as [v|]; [|done].
  destruct (int_fails v) eqn:Hv.
  - split; [done|]. intros H. specialize (H v eq_refl). congruence.
  - split; [|done]. by intros _ v' [= <-].
Qed.

Lemma soft_delete_finding_nil (env : gmap string string) :
  soft_delete_finding env = [] <->
  (soft_delete_enabled env ->
   forall v, env !! "KEEP_DELETED_TRANSACTIONS_FOR" = Some v ->
             int_fails v = false).
Proof.
  unfold soft_delete_finding. pose proof (enabled_flag env) as Hflag.
  destruct (String.eqb _ "true").
  - destruct (env !! "KEEP_DELETED_TRANSACTIONS_FOR") as [v|].
    + destruct (int_fails v) eqn:Hv.
      * split; [done|]. intros H.
        specialize (H (proj1 Hflag eq_refl) v eq_refl). congruence.
      * split; [|done]. by intros _ _ v' [= <-].
    + done.
  - split; [|done]. intros _ Hon. apply Hflag in Hon. discriminate Hon.
Qed.

(** ** X1 *)

(** X1. The pass over the three environment checks reports nothing exactly
    when: SECRET_KEY and SQL_DATABASE are bound to non-empty strings; each of
    the four integer variables is unbound or bound to a string [int]
    accepts; and, if ENABLE_SOFT_DELETE is a spelling of "true",
    KEEP_DELETED_TRANSACTIONS_FOR is unbound or bound to a string [int]
    accepts. *)
Theorem clean_pass_iff (w : World) :
  fst (run_checks env_checks w) = Return [] <-> well_configured (environ w).
Proof.
  pose proof (run_env_checks w) as Hrun.
  set (required := flat_map (required_finding (environ w)) REQUIRED_ENV_VARS)
    in Hrun.
  set (ints := flat_map (int_finding (environ w)) INT_ENV_VARS) in Hrun.
  rewrite Hrun. cbn [fst]. unfold well_configured.
  rewrite <- soft_delete_finding_nil.
  assert (Hrequired : required = [] <->
            forall name description, In (name, description) REQUIRED_ENV_VARS ->
              exists v, environ w !! name = Some v /\ v <> "").
  { unfold required. rewrite flat_map_nil. split.
    - intros H name description Hin.
      by apply (required_finding_nil _ (name, description)), H.
    - intros H [name description] Hin.
      apply required_finding_nil. by apply (H name description). }
  assert (Hints : ints = [] <->
            forall name description v, In (name, description) INT_ENV_VARS ->
              environ w !! name = Some v -> int_fails v = false).
  { unfold ints. rewrite flat_map_nil. split.
    - intros H name description v Hin.
      by apply (int_finding_nil _ (name, description)), H.
    - intros H [name description] Hin.
      apply int_finding_nil. intros v. by apply (H name description). }
  rewrite <- Hrequired, <- Hints. split.
  - intros [= H]. apply app_eq_nil in H as [? H].
    by apply app_eq_nil in H as [? ?].
  - by intros (-> & -> & ->).
Qed.

Lemma clean_pass_iff_witness :
  fst (run_checks env_checks
         (after_import {[ "SECRET_KEY" := "x"; "SQL_DATABASE" := "db" ]} no_oidc))
  = Return [].
Proof.
  apply clean_pass_iff. simpl. split; [|split].
  - intros name description [[= <- <-]|[[= <- <-]|[]]].
    + by exists "x".
    + by exists "db".
  - intros name description v Hin Hv. exfalso. revert Hv.
    destruct Hin as [[= <- <-]|[[= <- <-]|[[= <- <-]|[[= <- <-]|[]]]]];
      by vm_compute.
  - intros (flag & Hflag & _). exfalso. revert Hflag. by vm_compute.
Defined.

(** ** X2 *)

(** X2. The pass over the three environment checks reads eight names and no
    other: two worlds whose environments agree on those eight get the same
    findings, whatever else is bound, missing or different. *)
Theorem pass_reads_listed_names_only (w w' : World) :
  (forall name, In name read_by_checks ->
     environ w !! name = environ w' !! name) ->
  fst (run_checks env_checks w) = fst (run_checks env_checks w').
Proof.
  intros H. rewrite !run_env_checks. simpl.
  unfold required_finding, int_finding, soft_delete_finding. simpl.
  rewrite (H "SECRET_KEY"), (H "SQL_DATABASE"), (H "TASK_WORKERS"),
    (H "SESSION_EXPIRY_TIME"), (H "INTERNAL_PORT"),
    (H "DJANGO_VITE_DEV_SERVER_PORT"), (H "ENABLE_SOFT_DELETE"),
    (H "KEEP_DELETED_TRANSACTIONS_FOR");
    (reflexivity || (unfold read_by_checks; simpl; tauto)).
Qed.

Lemma pass_reads_listed_names_only_witness :
  fst (run_checks env_checks
         (after_import (<["SQL_USER" := "postgres"]> scenario_env) no_oidc))
  = fst (run_checks env_checks (after_import scenario_env no_oidc)).
Proof.
  apply pass_reads_listed_names_only.
  intros name Hin. simpl. apply lookup_insert_ne.
  unfold read_by_checks in Hin. simpl in Hin.
  intros <-. intuition discriminate.
Defined.

(** ** X3 *)

(** X3. KEEP_DELETED_TRANSACTIONS_FOR is not in the integer list: while
    ENABLE_SOFT_DELETE is not a spelling of "true", binding it to any string
    at all changes nothing in what the pass over the environment checks
    reports. *)
Theorem retention_unchecked_when_disabled (w : World) (v : string) :
  ~ soft_delete_enabled (environ w) ->
  fst (run_checks env_checks (setenv "KEEP_DELETED_TRANSACTIONS_FOR" v w))
  = fst (run_checks env_checks w).
Proof.
  intros Hoff. rewrite !run_env_checks. simpl.
  unfold required_finding, int_finding, soft_delete_finding. simpl.
  rewrite !lookup_insert_ne by discriminate.
  pose proof (enabled_flag (environ w)) as Hflag.
  destruct (String.eqb _ "true"); [|reflexivity].
  destruct Hoff. by apply Hflag.
Qed.

Lemma retention_unchecked_when_disabled_witness :
  fst (run_checks env_checks
         (setenv "KEEP_DELETED_TRANSACTIONS_FOR" "a week"
            (after_import {[ "ENABLE_SOFT_DELETE" := "yes" ]} no_oidc)))
  = fst (run_checks env_checks
           (after_import {[ "ENABLE_SOFT_DELETE" := "yes" ]} no_oidc)).
Proof.
  apply retention_unchecked_when_disabled.
  intros (flag & Hflag & Hin). simpl in Hflag.
  rewrite lookup_singleton_eq in Hflag. injection Hflag as <-.
  simpl in Hin. intuition discriminate.
Defined.

(** ** X4 *)

Lemma length_flat_map_le {A B} (f : A -> list B) (l : list A) :
  (forall x, (length (f x) <= 1)%nat) ->
  (length (flat_map f l) <= length l)%nat.
Proof.
  intros H. induction l as [|x l IH]; simpl; [lia|].
  rewrite length_app. specialize (H x). lia.
Qed.

(** X4. Whatever the environment, the pass over the three environment
    checks returns at most seven findings (one per listed variable and one
    for the retention period), and each of them is of error level, carries a
    hint, and has one of the codes wygiwyh.E001, wygiwyh.E002 and
    wygiwyh.E003. *)
Theorem pass_findings_are_coded_errors (w : World) :
  exists errors,
    run_checks env_checks w = (Return errors, w)
    /\ (length errors <= 7)%nat
    /\ Forall (fun f => level f = ERROR
                        /\ is_Some (hint f)
                        /\ In (id f) env_codes) errors.
Proof.
  eexists. split; [apply run_env_checks|].
  assert (Hreq : forall item,
            (length (required_finding (environ w) item) <= 1)%nat
            /\ Forall (fun f => level f = ERROR /\ is_Some (hint f)
                                /\ In (id f) env_codes)
                 (required_finding (environ w) item)).
  { intros item. unfold required_finding.
    destruct (not_value _); simpl; split; try lia; [|done].
    repeat constructor. by eexists. }
  assert (Hint : forall item,
            (length (int_finding (environ w) item) <= 1)%nat
            /\ Forall (fun f => level f = ERROR /\ is_Some (hint f)
                                /\ In (id f) env_codes)
                 (int_finding (environ w) item)).
  { intros item. unfold int_finding.
    destruct (environ w !! item.1) as [v|]; [|simpl; split; [lia|done]].
    destruct (int_fails v); simpl; split; try lia; [|done].
    constructor; [|done]. split; [done|]. split; [by eexists|]. simpl. tauto. }
  assert (Hsd : (length (soft_delete_finding (environ w)) <= 1)%nat
                /\ Forall (fun f => level f = ERROR /\ is_Some (hint f)
                                    /\ In (id f) env_codes)
                     (soft_delete_finding (environ w))).
  { unfold soft_delete_finding.
    destruct (String.eqb _ "true"); [|simpl; split; [lia|done]].
    destruct (environ w !! "KEEP_DELETED_TRANSACTIONS_FOR") as [v|];
      [|simpl; split; [lia|done]].
    destruct (int_fails v); simpl; split; try lia; [|done].
    constructor; [|done]. split; [done|]. split; [by eexists|]. simpl. tauto. }
  split.
  - rewrite !length_app.
    pose proof (length_flat_map_le (required_finding (environ w))
                  REQUIRED_ENV_VARS (fun x => proj1 (Hreq x))).
    pose proof (length_flat_map_le (int_finding (environ w))
                  INT_ENV_VARS (fun x => proj1 (Hint x))).
    destruct Hsd as [Hlen _]. simpl length in *. lia.
  - rewrite !Forall_app. split; [|split; [|apply Hsd]].
    + apply Forall_flat_map, Forall_forall. intros x _. apply Hreq.
    + apply Forall_flat_map, Forall_forall. intros x _. apply Hint.
Qed.

(** ** X5 *)

(** X5. In the module as it is written, a pass that includes
    [check_oidc_vars] ends in its [NameError], in whatever order the
    registered checks are called: the findings the other checks made are not
    returned. *)
Theorem pass_raises_in_any_order
    (checks : list (M World (list CheckMessage)))
    (env : gmap string string) (c : Settings) :
  Forall (fun check => In check registered_checks) checks ->
  In check_oidc_vars checks ->
  run_checks checks (after_import env c)
  = (Raise (NameError "settings"), after_import env c).
Proof.
  intros Hall. unfold run_checks. generalize (@nil CheckMessage).
  induction Hall as [|check rest Hreg _ IH]; intros acc Hin; [destruct Hin|].
  assert (Hoidc : check_oidc_vars (after_import env c)
                  = (Raise (NameError "settings"), after_import env c))
    by (by apply check_oidc_vars_unbound).
  simpl. unfold run_body. step.
  destruct Hin as [->|Hin]; [by rewrite Hoidc|].
  simpl in Hreg. destruct Hreg as [<-|[<-|[<-|[<-|[]]]]].
  - rewrite check_required_env_vars_run. by apply IH.
  - rewrite check_int_env_vars_run. by apply IH.
  - rewrite check_soft_delete_config_run. by apply IH.
  - by rewrite Hoidc.
Qed.

Lemma pass_raises_in_any_order_witness :
  run_checks [check_required_env_vars; check_int_env_vars; check_oidc_vars]
    (after_import scenario_env no_oidc)
  = (Raise (NameError "settings"), after_import scenario_env no_oidc).
Proof.
  apply pass_raises_in_any_order.
  - repeat constructor; simpl; tauto.
  - simpl. tauto.
Defined.

End ChecksMore.

(* ===================================================================== *)
(** * Further properties of the session toggles *)
(* ===================================================================== *)

Module SessionMore.
Import Py Views Sidebar Spec Tactics ViewsFacts.

(** The position a call leaves, from what the session held. *)
Lemma toggle_sidebar_status_run (s : gmap string value) :
  toggle_sidebar_status s
  = (Return no_content,
     <["sidebar_status" :=
         VStr (if eq_str (default VNone (s !! "sidebar_status")) "fixed"
               then "floating" else "fixed")]> s).
Proof.
  unfold toggle_sidebar_status, mbind, M_bind, bind, mret, M_ret, ret,
    session_get, session_setitem, gets, modify.
  destruct (truthy (default VNone (s !! "sidebar_status"))) eqn:Htruthy.
  - destruct (s !! "sidebar_status") as [v|] eqn:Hv; simpl in Htruthy; [|done].
    unfold session_getitem. rewrite Hv. simpl.
    destruct (eq_str v "floating") eqn:Hfloating.
    + apply eq_str_true in Hfloating. by subst v.
    + rewrite Hv. by destruct (eq_str v "fixed").
  - rewrite (falsy_is_no_theme _ "fixed" Htruthy) by done.
    unfold session_getitem. rewrite lookup_insert_eq. simpl.
    by rewrite insert_insert_eq.
Qed.

(** ** X6 *)

(** X6. A call of [toggle_sidebar_status] answers 204 without raising and
    leaves a session whose sidebar_status is "floating" or "fixed", with
    every other key untouched. From "floating" it goes to "fixed" and from
    "fixed" to "floating", so that a second call gives the first session
    back; from anything else, stored or not, it goes to "fixed". *)
Theorem toggle_sidebar_status_spec (s : gmap string value) :
  (exists s',
     toggle_sidebar_status s = (Return no_content, s')
     /\ (exists p, In p positions /\ s' !! "sidebar_status" = Some (VStr p))
     /\ (forall key, key <> "sidebar_status" -> s' !! key = s !! key))
  /\ (forall p, In p positions -> s !! "sidebar_status" = Some (VStr p) ->
      session_after toggle_sidebar_status s !! "sidebar_status" <> Some (VStr p)
      /\ session_after toggle_sidebar_status
           (session_after toggle_sidebar_status s) = s)
  /\ ((forall p, In p positions -> s !! "sidebar_status" <> Some (VStr p)) ->
      session_after toggle_sidebar_status s !! "sidebar_status"
      = Some (VStr "fixed")).
Proof.
  split; [|split].
  - eexists. split; [apply toggle_sidebar_status_run|]. split.
    + eexists. rewrite lookup_insert_eq. split; [|reflexivity].
      destruct (eq_str _ _); simpl; tauto.
    + intros key Hkey. by rewrite lookup_insert_ne.
  - intros p Hp Hs. unfold session_after.
    rewrite !toggle_sidebar_status_run. simpl.
    rewrite !lookup_insert_eq, Hs, insert_insert_eq. simpl.
    simpl in Hp. destruct Hp as [<-|[<-|[]]]; simpl;
      (split; [done|]); by apply insert_id.
  - intros Hnot. unfold session_after. rewrite toggle_sidebar_status_run. simpl.
    rewrite lookup_insert_eq.
    destruct (eq_str _ "fixed") eqn:Hfixed; [|done].
    apply eq_str_true in Hfixed.
    destruct (s !! "sidebar_status") as [v|] eqn:Hv; simpl in Hfixed; [|done].
    subst v. destruct (Hnot "fixed"); simpl; [tauto|done].
Qed.

Lemma toggle_sidebar_status_spec_witness :
  session_after toggle_sidebar_status
    (session_after toggle_sidebar_status {[ "sidebar_status" := VStr "fixed" ]})
  = {[ "sidebar_status" := VStr "fixed" ]}
  /\ session_after toggle_sidebar_status {[ "sidebar_status" := VInt 3 ]}
       !! "sidebar_status"
     = Some (VStr "fixed").
Proof.
  split.
  - destruct (toggle_sidebar_status_spec {[ "sidebar_status" := VStr "fixed" ]})
      as (_ & Hknown & _).
    apply (Hknown "fixed"); [simpl; tauto | reflexivity].
  - destruct (toggle_sidebar_status_spec {[ "sidebar_status" := VInt 3 ]})
      as (_ & _ & Hother).
    apply Hother. intros p _. by vm_compute.
Defined.

(** ** X7 *)


(** ** X8 *)

(** X8. The two session toggles do not interfere: [toggle_theme] leaves
    sidebar_status as it is, [toggle_sidebar_status] leaves theme as it is,
    and calling them in either order leaves the same session. *)
Theorem session_toggles_commute (s : gmap string value) :
  session_after toggle_theme s !! "sidebar_status" = s !! "sidebar_status"
  /\ session_after toggle_sidebar_status s !! "theme" = s !! "theme"
  /\ session_after toggle_theme (session_after toggle_sidebar_status s)
     = session_after toggle_sidebar_status (session_after toggle_theme s).
Proof.
  unfold session_after.
  rewrite !toggle_theme_run, !toggle_sidebar_status_run. simpl.
  rewrite !lookup_insert_ne by done.
  split; [done|]. split; [done|].
  by apply insert_insert_ne.
Qed.

End SessionMore.

(* ===================================================================== *)
(** * Further properties of the settings toggles and the form views *)
(* ===================================================================== *)

Module SiteMore.
Import Py Views Site MoreSpec.

(** ** What the two toggles evaluate to *)

Lemma toggle_amount_visibility_run defaults request s :
  let row := row_of defaults (user_id request) s in
  let hidden := negb (hide_amounts row) in
  toggle_amount_visibility defaults request s
  = (Return (set_header "HX-Trigger" "updated"
               (render (if hidden then "users/generic/show_amounts.html"
                        else "users/generic/hide_amounts.html") [])),
     {| usersettings :=
          <[user_id request :=
              {| fields := fields row; hide_amounts := hidden;
                 mute_sounds := mute_sounds row |}]> (usersettings s);
        accounts := accounts s;
        flash := flash s ++
                 [(INFO, if hidden then "Transaction amounts are now hidden"
                         else "Transaction amounts are now displayed")] |}).
Proof.
  unfold toggle_amount_visibility, row_of, get_or_create, save_settings,
    add_message, mbind, M_bind, bind, mret, M_ret, ret, modify.
  destruct (usersettings s !! user_id request) as [row|]; simpl.
  - by destruct (hide_amounts row).
  - rewrite insert_insert_eq. by destruct (hide_amounts defaults).
Qed.

Lemma toggle_sound_playing_run defaults request s :
  let row := row_of defaults (user_id request) s in
  let muted := negb (mute_sounds row) in
  toggle_sound_playing defaults request s
  = (Return (set_header "HX-Trigger" "updated"
               (render (if muted then "users/generic/play_sounds.html"
                        else "users/generic/mute_sounds.html") [])),
     {| usersettings :=
          <[user_id request :=
              {| fields := fields row; hide_amounts := hide_amounts row;
                 mute_sounds := muted |}]> (usersettings s);
        accounts := accounts s;
        flash := flash s ++
                 [(INFO, if muted then "Sounds are now muted"
                         else "Sounds will now play")] |}).
Proof.
  unfold toggle_sound_playing, row_of, get_or_create, save_settings,
    add_message, mbind, M_bind, bind, mret, M_ret, ret, modify.
  destruct (usersettings s !! user_id request) as [row|]; simpl.
  - by destruct (mute_sounds row).
  - rewrite insert_insert_eq. by destruct (mute_sounds defaults).
Qed.

(** ** X9 *)

(** X9. [toggle_amount_visibility] never raises. It leaves the requesting
    user with a settings row (created from the defaults if there was none)
    whose hide_amounts is the negation of what it was, and whose other fields
    are as before; the rows of other users and the user table are untouched.
    The answer agrees with what is now stored: when amounts are now hidden it
    renders the show_amounts partial and says so in an info message, else
    the hide_amounts partial; and it carries the header HX-Trigger:
    updated. *)
Theorem toggle_amount_visibility_spec
    (defaults : UserSettingsRow) (request : Request) (s : State) :
  exists response s' row',
    toggle_amount_visibility defaults request s = (Return response, s')
    /\ usersettings s' !! user_id request = Some row'
    /\ hide_amounts row'
       = negb (hide_amounts (row_of defaults (user_id request) s))
    /\ mute_sounds row' = mute_sounds (row_of defaults (user_id request) s)
    /\ fields row' = fields (row_of defaults (user_id request) s)
    /\ (forall other, other <> user_id request ->
        usersettings s' !! other = usersettings s !! other)
    /\ accounts s' = accounts s
    /\ status_code response = 200
    /\ template response
       = Some (if hide_amounts row' then "users/generic/show_amounts.html"
               else "users/generic/hide_amounts.html")
    /\ header "HX-Trigger" response = Some "updated"
    /\ flash s'
       = flash s ++ [(INFO, if hide_amounts row'
                            then "Transaction amounts are now hidden"
                            else "Transaction amounts are now displayed")].
Proof.
  do 3 eexists. split; [apply toggle_amount_visibility_run|]. simpl.
  split; [apply lookup_insert_eq|]. simpl.
  repeat split; try done.
  intros other Hother. rewrite lookup_insert_ne; congruence.
Qed.

(** ** X10 *)

(** X10. [toggle_sound_playing] never raises. It leaves the requesting user
    with a settings row (created from the defaults if there was none) whose
    mute_sounds is the negation of what it was, and whose other fields are as
    before; the rows of other users and the user table are untouched. When
    sounds are now muted it renders the play_sounds partial and says so in an
    info message, else the mute_sounds partial; and it carries the header
    HX-Trigger: updated. *)
Theorem toggle_sound_playing_spec
    (defaults : UserSettingsRow) (request : Request) (s : State) :
  exists response s' row',
    toggle_sound_playing defaults request s = (Return response, s')
    /\ usersettings s' !! user_id request = Some row'
    /\ mute_sounds row'
       = negb (mute_sounds (row_of defaults (user_id request) s))
    /\ hide_amounts row' = hide_amounts (row_of defaults (user_id request) s)
    /\ fields row' = fields (row_of defaults (user_id request) s)
    /\ (forall other, other <> user_id request ->
        usersettings s' !! other = usersettings s !! other)
    /\ accounts s' = accounts s
    /\ status_code response = 200
    /\ template response
       = Some (if mute_sounds row' then "users/generic/play_sounds.html"
               else "users/generic/mute_sounds.html")
    /\ header "HX-Trigger" response = Some "updated"
    /\ flash s'
       = flash s ++ [(INFO, if mute_sounds row' then "Sounds are now muted"
                            else "Sounds will now play")].
Proof.
  do 3 eexists. split; [apply toggle_sound_playing_run|]. simpl.
  split; [apply lookup_insert_eq|]. simpl.
  repeat split; try done.
  intros other Hother. rewrite lookup_insert_ne; congruence.
Qed.

(** ** X11 *)

(** X11. Two calls of the same settings toggle by a user give the settings
    table back as it was when the user had a row; when the user had none,
    they leave the table with the defaults inserted for that user. Either
    way the user table is untouched and two messages are added. *)
Theorem settings_toggle_twice
    (defaults : UserSettingsRow) (request : Request) (s : State) :
  let twice (toggle : Request -> M State Response) :=
    snd (toggle request (snd (toggle request s))) in
  Forall
    (fun toggle =>
       (is_Some (usersettings s !! user_id request) ->
        usersettings (twice toggle) = usersettings s)
       /\ (usersettings s !! user_id request = None ->
           usersettings (twice toggle)
           = <[user_id request := defaults]> (usersettings s))
       /\ accounts (twice toggle) = accounts s
       /\ length (flash (twice toggle)) = S (S (length (flash s))))
    [ toggle_amount_visibility defaults; toggle_sound_playing defaults ].
Proof.
  intros twice. unfold twice.
  repeat constructor;
    rewrite ?toggle_amount_visibility_run, ?toggle_sound_playing_run;
    cbn [snd usersettings accounts flash]; unfold row_of;
    cbn [usersettings]; rewrite ?lookup_insert_eq, ?insert_insert_eq;
    cbn [default hide_amounts mute_sounds fields]; rewrite ?negb_involutive;
    try done.
  - intros [row Hrow]. rewrite Hrow. simpl. apply insert_id.
    rewrite Hrow, negb_involutive. by destruct row.
  - intros ->. simpl. rewrite negb_involutive. by destruct defaults.
  - rewrite !length_app. simpl. lia.
  - intros [row Hrow]. rewrite Hrow. simpl. apply insert_id.
    rewrite Hrow, negb_involutive. by destruct row.
  - intros ->. simpl. rewrite negb_involutive. by destruct defaults.
  - rewrite !length_app. simpl. lia.
Qed.

Lemma settings_toggle_twice_witness :
  usersettings
    (snd (toggle_amount_visibility sample_defaults (request_by "GET" 1 true [])
            (snd (toggle_amount_visibility sample_defaults
                    (request_by "GET" 1 true []) sample_state))))
  = usersettings sample_state
  /\ usersettings
       (snd (toggle_sound_playing sample_defaults (request_by "GET" 2 false [])
               (snd (toggle_sound_playing sample_defaults
                       (request_by "GET" 2 false []) sample_state))))
     = <[2 := sample_defaults]> (usersettings sample_state).
Proof.
  split.
  - pose proof (settings_toggle_twice sample_defaults
                  (request_by "GET" 1 true []) sample_state) as H.
    apply Forall_cons in H as [(Hsome & _) _].
    apply Hsome. by eexists.
  - pose proof (settings_toggle_twice sample_defaults
                  (request_by "GET" 2 false []) sample_state) as H.
    apply Forall_cons in H as [_ H]. apply Forall_cons in H as [(_ & Hnone & _) _].
    apply Hnone. reflexivity.
Defined.

(** ** X12 *)

(** X12. The two settings toggles commute on the database: whichever is
    called first, the settings table and the user table end up the same (only
    the order of the two messages differs). *)
Theorem settings_toggles_commute
    (defaults : UserSettingsRow) (request : Request) (s : State) :
  let amount_then_sound :=
    snd (toggle_sound_playing defaults request
           (snd (toggle_amount_visibility defaults request s))) in
  let sound_then_amount :=
    snd (toggle_amount_visibility defaults request
           (snd (toggle_sound_playing defaults request s))) in
  usersettings amount_then_sound = usersettings sound_then_amount
  /\ accounts amount_then_sound = accounts sound_then_amount.
Proof.
  cbn zeta.
  rewrite !toggle_amount_visibility_run, !toggle_sound_playing_run.
  cbn [snd usersettings accounts]. unfold row_of. cbn [usersettings].
  rewrite !lookup_insert_eq, !insert_insert_eq. by cbn.
Qed.

(** ** X13 *)

(** X13. [update_settings] reads [request.user.settings] before anything
    else: for a user without a settings row it raises
    RelatedObjectDoesNotExist, whatever the method, and writes nothing. The
    toggles create the missing row, so after either of them the same request
    is answered. *)
Theorem update_settings_needs_row
    (UserSettingsForm : Z -> Form) (defaults : UserSettingsRow)
    (request : Request) (s : State) :
  usersettings s !! user_id request = None ->
  update_settings UserSettingsForm request s
  = (Raises RelatedObjectDoesNotExist, s)
  /\ (exists response,
        fst (update_settings UserSettingsForm request
               (snd (toggle_amount_visibility defaults request s)))
        = Responds response)
  /\ (exists response,
        fst (update_settings UserSettingsForm request
               (snd (toggle_sound_playing defaults request s)))
        = Responds response).
Proof.
  intros Hnone. split; [|split].
  - unfold update_settings. by rewrite Hnone.
  - rewrite toggle_amount_visibility_run. unfold update_settings.
    cbn [snd usersettings]. rewrite lookup_insert_eq.
    destruct (String.eqb _ _); [destruct (is_valid _ _ _)|]; by eexists.
  - rewrite toggle_sound_playing_run. unfold update_settings.
    cbn [snd usersettings]. rewrite lookup_insert_eq.
    destruct (String.eqb _ _); [destruct (is_valid _ _ _)|]; by eexists.
Qed.

Lemma update_settings_needs_row_witness :
  update_settings (fun _ => sample_form) (request_by "GET" 2 false [])
    sample_state
  = (Raises RelatedObjectDoesNotExist, sample_state).
Proof.
  apply (update_settings_needs_row (fun _ => sample_form) sample_defaults
           (request_by "GET" 2 false []) sample_state).
  reflexivity.
Defined.

(** ** X14 *)

(** X14. [update_settings] and [user_add] write only for a POST whose form
    is valid: for any other method, or for a submission the form rejects,
    they leave the database and the messages as they are and answer, if they
    answer, with the form's template and status 200. *)
Theorem form_views_write_only_on_valid_post
    (UserSettingsForm : Z -> Form) (UserAddForm : Form)
    (request : Request) (s : State) :
  (method request <> "POST"
   \/ is_valid (UserSettingsForm (user_id request)) (POST request) s = false ->
   snd (update_settings UserSettingsForm request s) = s
   /\ forall response,
        fst (update_settings UserSettingsForm request s) = Responds response ->
        status_code response = 200
        /\ template response = Some "users/fragments/user_settings.html")
  /\ (method request <> "POST"
      \/ is_valid UserAddForm (POST request) s = false ->
      snd (user_add UserAddForm request s) = s
      /\ fst (user_add UserAddForm request s)
         = Responds (render "users/fragments/add.html" ["form"])).
Proof.
  split; intros Hno.
  - unfold update_settings.
    destruct (usersettings s !! user_id request); [|done].
    destruct (String.eqb_spec (method request) "POST") as [Hpost|Hget].
    + destruct Hno as [Hno| ->]; [done|]. split; [done|]. by intros ? [= <-].
    + split; [done|]. by intros ? [= <-].
  - unfold user_add.
    destruct (String.eqb_spec (method request) "POST") as [Hpost|Hget]; [|done].
    by destruct Hno as [Hno| ->].
Qed.

Lemma form_views_write_only_on_valid_post_witness :
  snd (update_settings (fun _ => sample_form) (request_by "POST" 1 true [])
         sample_state) = sample_state
  /\ snd (user_add sample_form (request_by "GET" 1 true [("username", "ada")])
            sample_state) = sample_state.
Proof.
  destruct (form_views_write_only_on_valid_post (fun _ => sample_form)
              sample_form (request_by "POST" 1 true []) sample_state)
    as (Hupdate & _).
  destruct (form_views_write_only_on_valid_post (fun _ => sample_form)
              sample_form (request_by "GET" 1 true [("username", "ada")])
              sample_state)
    as (_ & Hadd).
  split.
  - apply Hupdate. right. reflexivity.
  - apply Hadd. left. discriminate.
Defined.

(** ** X15 *)

(** X15. What [user_edit] raises: Http404 exactly when no user has the
    primary key; PermissionDenied exactly when that user exists and the
    requester is neither a superuser nor that user. The lookup comes first,
    so a requester without rights over a key still learns whether it
    exists. In every other case the view answers. *)
Theorem user_edit_answers
    (UserUpdateForm : Z -> Form) (request : Request) (pk : Z) (s : State) :
  (fst (user_edit UserUpdateForm request pk s) = Raises Http404
   <-> accounts s !! pk = None)
  /\ (fst (user_edit UserUpdateForm request pk s) = Raises PermissionDenied
      <-> is_Some (accounts s !! pk)
          /\ user_is_superuser request = false
          /\ pk <> user_id request)
  /\ (is_Some (accounts s !! pk) ->
      user_is_superuser request = true \/ pk = user_id request ->
      exists response,
        fst (user_edit UserUpdateForm request pk s) = Responds response).
Proof.
  unfold user_edit.
  destruct (accounts s !! pk) as [user|]; simpl.
  - destruct (user_is_superuser request); simpl.
    + split; [|split].
      * split; [|done].
        destruct (String.eqb _ _); [destruct (is_valid _ _ _)|]; done.
      * split; [|by intros (_ & ? & _)].
        destruct (String.eqb _ _); [destruct (is_valid _ _ _)|]; done.
      * intros _ _.
        destruct (String.eqb _ _); [destruct (is_valid _ _ _)|]; by eexists.
    + destruct (Z.eqb_spec pk (user_id request)) as [Heq|Hne]; simpl.
      * split; [|split].
        -- split; [|done].
           destruct (String.eqb _ _); [destruct (is_valid _ _ _)|]; done.
        -- split; [|by intros (_ & _ & ?)].
           destruct (String.eqb _ _); [destruct (is_valid _ _ _)|]; done.
        -- intros _ _.
           destruct (String.eqb _ _); [destruct (is_valid _ _ _)|]; by eexists.
      * split; [done|]. split; [done|]. by intros _ [|].
  - split; [done|]. split.
    + split; [done|]. by intros ([? [=]] & _).
    + by intros [? [=]].
Qed.

Lemma user_edit_answers_witness :
  exists response,
    fst (user_edit (fun _ => sample_form) (request_by "GET" 2 false []) 2
           sample_state)
    = Responds response.
Proof.
  destruct (user_edit_answers (fun _ => sample_form)
              (request_by "GET" 2 false []) 2 sample_state)
    as (_ & _ & Hanswers).
  apply Hanswers.
  - by eexists.
  - right. reflexivity.
Defined.

(** ** X16 *)

(** X16. [user_edit] writes only with the rights to: if a call leaves the
    state changed, then the user with that primary key exists, the requester
    is a superuser or that very user, the method is POST and the form bound
    to that user accepted the submission; and the change is that form's save
    followed by one success message. *)
Theorem user_edit_writes_only_when_authorized
    (UserUpdateForm : Z -> Form) (request : Request) (pk : Z) (s : State) :
  snd (user_edit UserUpdateForm request pk s) <> s ->
  is_Some (accounts s !! pk)
  /\ (user_is_superuser request = true \/ pk = user_id request)
  /\ method request = "POST"
  /\ is_valid (UserUpdateForm pk) (POST request) s = true
  /\ snd (user_edit UserUpdateForm request pk s)
     = with_success "Item updated successfully"
         (save (UserUpdateForm pk) (POST request) s).
Proof.
  unfold user_edit.
  destruct (accounts s !! pk) as [user|]; [|done].
  destruct (negb (user_is_superuser request) && negb (pk =? user_id request))
    eqn:Hdenied; [done|].
  destruct (String.eqb_spec (method request) "POST") as [Hpost|Hget]; [|done].
  destruct (is_valid (UserUpdateForm pk) (POST request) s) eqn:Hvalid; [|done].
  intros _. split; [by eexists|]. split; [|done].
  apply andb_false_iff in Hdenied as [H|H]; apply negb_false_iff in H.
  - by left.
  - right. by apply Z.eqb_eq.
Qed.

Lemma user_edit_writes_only_when_authorized_witness :
  snd (user_edit (fun _ => sample_form)
         (request_by "POST" 2 false [("username", "ada")]) 2 sample_state)
  = with_success "Item updated successfully"
      (save sample_form [("username", "ada")] sample_state).
Proof.
  apply (user_edit_writes_only_when_authorized (fun _ => sample_form)
           (request_by "POST" 2 false [("username", "ada")]) 2 sample_state).
  vm_compute. intros H. discriminate H.
Defined.

End SiteMore.

(* ===================================================================== *)
(** * Further properties of the login view *)
(* ===================================================================== *)

Module LoginMore.
Import Py Checks Views Login Spec Tactics ChecksFacts.

(** ** X17 *)

(** X17. In views.py as it is written, constructing [UserLoginView] raises
    [NameError]: [__init__] reads the free name [settings], which no
    statement of the file binds, whatever the environment, the resolved
    settings, the provider table and the URL configuration are. *)
Theorem UserLoginView_init_raises_NameError
    (server_url : gmap string (gmap string string) -> outcome string)
    (url_reverse : string -> option string)
    (env : gmap string string) (c : Settings) :
  UserLoginView_init server_url url_reverse (views_imported env c)
  = (Raise (NameError "settings"), views_imported env c).
Proof.
  assert (Hfree : globals (views_imported env c) !! "settings" = None)
    by (by vm_compute).
  generalize dependent (views_imported env c). intros w Hfree.
  unfold UserLoginView_init. step. by rewrite Hfree.
Qed.

End LoginMore.
